(** * colorize_theme: two-stage colour resolution for VS Code themes

    A shallow embedding of [src/colorize_theme.py] (class [ColorMappings])
    and the verification of its specification.

    Python values are modelled as the program has them:
    - [str] is [string]; the two characters the program looks for, ['.']
      and ['#'], are ASCII, so a byte-wise reading of a UTF-8 string finds
      them exactly where Python finds them;
    - a [dict] is an association list in insertion order (Python dictionaries
      are insertion-ordered and the flattened colour index depends on that
      order); [d[k]] reads the first entry for [k], [d[k] = v] overwrites it
      in place, or appends a new entry when [k] is missing;
    - a raised exception is the [Raise] case of [result]; the program raises
      plain [Exception]s that differ by message only, so [exn] has one
      constructor per [raise] statement, named after the error taxonomy of
      the specification, plus the interpreter's own errors;
    - the document returned by [json.load] is a tree without sharing, so the
      in-place updates of [apply_to_theme] are functional updates along the
      path to the modified dictionary. *)

From Stdlib Require Import String Ascii List ZArith Bool Lia.
From Stdlib Require Import SpecFloat Permutation.
Import ListNotations.
Open Scope string_scope.

Set Implicit Arguments.

(* ================================================================== *)
(** ** Exceptions and the error monad *)
(* ================================================================== *)

Inductive exn : Type :=
| MalformedNameError (name : string)
| ColorNotFoundError (name : string) (group : option string)
| GroupNotFoundError (qual : string)
| UnqualifiedBindingError (binding_name : string)
| CategoryNotFoundError (qual : string)
| ElementNotFoundError (name qual : string)
| PyKeyError (key : string)
| PyTypeError
| PyAttributeError
| PyIndexError
| PyValueError.

(** The text of the f-string given to [Exception(...)] at each [raise]. *)
Definition exn_message (e : exn) : option string :=
  match e with
  | MalformedNameError name =>
      Some ("A qualified name can only have one '.' (" ++ name ++ ")")
  | ColorNotFoundError name None =>
      Some ("Color " ++ name ++ " not found")
  | ColorNotFoundError name (Some qual) =>
      Some ("Color " ++ name ++ " not in group " ++ qual)
  | GroupNotFoundError qual =>
      Some ("Color group " ++ qual ++ " not found")
  | UnqualifiedBindingError binding_name =>
      Some ("Binding names must be qualified (" ++ binding_name ++ ")")
  | CategoryNotFoundError qual =>
      Some ("Binding category " ++ qual ++ " not found")
  | ElementNotFoundError name qual =>
      Some ("Color " ++ name ++ " not found in category " ++ qual)
  | _ => None
  end.

Inductive result (A : Type) : Type :=
| Ok (a : A)
| Raise (e : exn).

Arguments Ok {A} a.
Arguments Raise {A} e.

Definition bind {A B : Type} (r : result A) (k : A -> result B) : result B :=
  match r with
  | Ok a => k a
  | Raise e => Raise e
  end.

Definition fmap {A B : Type} (f : A -> B) (r : result A) : result B :=
  bind r (fun a => Ok (f a)).

Notation "x <- r ;; k" := (bind r (fun x => k))
  (at level 61, r at next level, right associativity).

(** A [for] loop whose body may raise and that collects one value per
    element. *)
Fixpoint for_each {A B : Type} (body : A -> result B) (xs : list A)
  : result (list B) :=
  match xs with
  | [] => Ok []
  | x :: xs' =>
      y <- body x ;;
      ys <- for_each body xs' ;;
      Ok (y :: ys)
  end.

(** A [for] loop that threads the state [s] through its iterations. *)
Fixpoint for_state {A S : Type} (body : A -> S -> result S) (xs : list A)
  (s : S) : result S :=
  match xs with
  | [] => Ok s
  | x :: xs' => s' <- body x s ;; for_state body xs' s'
  end.

(* ================================================================== *)
(** ** Python [str] operations *)
(* ================================================================== *)

Definition dot : ascii := "."%char.

(** [c in s] for a one-character [c]. *)
Fixpoint contains_char (c : ascii) (s : string) : bool :=
  match s with
  | EmptyString => false
  | String a s' => Ascii.eqb a c || contains_char c s'
  end.

(** [s.count(c)] for a one-character [c]. *)
Fixpoint count_char (c : ascii) (s : string) : nat :=
  match s with
  | EmptyString => 0
  | String a s' => (if Ascii.eqb a c then 1 else 0) + count_char c s'
  end.

(** [s.split(c)] for a one-character separator [c]. *)
Fixpoint split_char (c : ascii) (s : string) : list string :=
  match s with
  | EmptyString => [EmptyString]
  | String a s' =>
      if Ascii.eqb a c then EmptyString :: split_char c s'
      else match split_char c s' with
           | [] => [String a EmptyString]
           | piece :: pieces => String a piece :: pieces
           end
  end.

(** [s.startswith(p)]. *)
Definition startswith (s p : string) : bool := prefix p s.

(** [p in s] for strings. *)
Fixpoint substringb (p s : string) : bool :=
  prefix p s ||
  match s with
  | EmptyString => false
  | String _ s' => substringb p s'
  end.

(* ================================================================== *)
(** ** Python [dict] operations *)
(* ================================================================== *)

Definition dict (V : Type) : Type := list (string * V).

Definition dict_keys {V : Type} (d : dict V) : list string := map fst d.

Fixpoint dict_get {V : Type} (k : string) (d : dict V) : option V :=
  match d with
  | [] => None
  | (k', v) :: d' => if String.eqb k' k then Some v else dict_get k d'
  end.

Definition dict_mem {V : Type} (k : string) (d : dict V) : bool :=
  match dict_get k d with
  | Some _ => true
  | None => false
  end.

(** [d[k] = v]: an existing key keeps its position. *)
Fixpoint dict_set {V : Type} (k : string) (v : V) (d : dict V) : dict V :=
  match d with
  | [] => [(k, v)]
  | (k', v') :: d' =>
      if String.eqb k' k then (k', v) :: d' else (k', v') :: dict_set k v d'
  end.

(* ================================================================== *)
(** ** The colour and binding tables *)
(* ================================================================== *)

Definition Color := string.
Definition ColorName := string.
Definition ColorGroup := dict Color.
Definition ColorMap := dict ColorGroup.
Definition ElementName := string.
Definition ElementColorBindings := dict ColorName.
Definition ColorBinding := dict ElementColorBindings.

Record ColorMappings : Type := {
  color_map : ColorMap;
  all_colors : dict Color;
  bindings : ColorBinding
}.

(** The inner loop of [__init__]: [for (name, value) in gr.items()]. *)
Definition add_group (all : dict Color) (gr : ColorGroup) : dict Color :=
  fold_left
    (fun acc nv => if dict_mem (fst nv) acc then acc
                   else dict_set (fst nv) (snd nv) acc)
    gr all.

(** The outer loop of [__init__]: [for gr in self.color_map.values()]. *)
Definition flatten_groups (colors : ColorMap) : dict Color :=
  fold_left (fun acc kg => add_group acc (snd kg)) colors [].

Definition __init__ (colors : ColorMap) (bindings : ColorBinding)
  : ColorMappings :=
  {| color_map := colors;
     all_colors := flatten_groups colors;
     bindings := bindings |}.

(** [_decompose_name] returns [name.split(".")], which the callers unpack
    into two variables; unpacking a list of another length raises
    [ValueError]. *)
Definition _decompose_name (name : string) : result (option string * string) :=
  if negb (contains_char dot name) then Ok (None, name)
  else if Nat.ltb 1 (count_char dot name) then Raise (MalformedNameError name)
  else match split_char dot name with
       | [qual; base] => Ok (Some qual, base)
       | _ => Raise PyValueError
       end.

Definition get_color_for_name (self : ColorMappings) (color : string)
  : result Color :=
  qn <- _decompose_name color ;;
  let name := snd qn in
  match fst qn with
  | None =>
      if negb (dict_mem name (all_colors self))
      then Raise (ColorNotFoundError name None)
      else match dict_get name (all_colors self) with
           | Some c => Ok c
           | None => Raise (PyKeyError name)
           end
  | Some qual =>
      if negb (dict_mem qual (color_map self))
      then Raise (GroupNotFoundError qual)
      else match dict_get qual (color_map self) with
           | None => Raise (PyKeyError qual)
           | Some gr =>
               if negb (dict_mem name gr)
               then Raise (ColorNotFoundError name (Some qual))
               else match dict_get name gr with
                    | Some c => Ok c
                    | None => Raise (PyKeyError name)
                    end
           end
  end.

Definition get_color_name_for_binding (self : ColorMappings)
  (binding_name : string) : result ColorName :=
  qn <- _decompose_name binding_name ;;
  let name := snd qn in
  match fst qn with
  | None => Raise (UnqualifiedBindingError binding_name)
  | Some qual =>
      if negb (dict_mem qual (bindings self))
      then Raise (CategoryNotFoundError qual)
      else match dict_get qual (bindings self) with
           | None => Raise (PyKeyError qual)
           | Some cat =>
               if negb (dict_mem name cat)
               then Raise (ElementNotFoundError name qual)
               else match dict_get name cat with
                    | Some c => Ok c
                    | None => Raise (PyKeyError name)
                    end
           end
  end.

Definition get_color_for_binding (self : ColorMappings)
  (binding_name : string) : result Color :=
  n <- get_color_name_for_binding self binding_name ;;
  get_color_for_name self n.

(* ================================================================== *)
(** ** JSON documents as [json.load] returns them *)
(* ================================================================== *)

Unset Elimination Schemes.

Inductive json : Type :=
| JNull
| JBool (b : bool)
| JInt (z : Z)
| JFloat (f : spec_float)
| JStr (s : string)
| JArr (l : list json)
| JObj (d : list (string * json)).

Set Elimination Schemes.

(** [o[k]] for a [str] key [k]. *)
Definition py_getitem_str (o : json) (k : string) : result json :=
  match o with
  | JObj d => match dict_get k d with
              | Some v => Ok v
              | None => Raise (PyKeyError k)
              end
  | _ => Raise PyTypeError
  end.

(** [o[k] = v] for a [str] key [k]. *)
Definition py_setitem_str (o : json) (k : string) (v : json) : result json :=
  match o with
  | JObj d => Ok (JObj (dict_set k v d))
  | _ => Raise PyTypeError
  end.

Definition is_str (k : string) (x : json) : bool :=
  match x with
  | JStr s => String.eqb s k
  | _ => false
  end.

(** [k in o] for a [str] [k]: key test on a dictionary, element test on a
    list, substring test on a string; other values are not containers. *)
Definition py_contains_str (k : string) (o : json) : result bool :=
  match o with
  | JObj d => Ok (dict_mem k d)
  | JArr l => Ok (existsb (is_str k) l)
  | JStr s => Ok (substringb k s)
  | _ => Raise PyTypeError
  end.

(** The position a list subscript [x] denotes in a list of length [len]:
    integers (and booleans, which are integers) index from either end. *)
Definition py_index (x : json) (len : nat) : result nat :=
  let norm (z : Z) : result nat :=
    if (0 <=? z)%Z && (z <? Z.of_nat len)%Z then Ok (Z.to_nat z)
    else if (- Z.of_nat len <=? z)%Z && (z <? 0)%Z
         then Ok (Z.to_nat (z + Z.of_nat len))
         else Raise PyIndexError in
  match x with
  | JInt z => norm z
  | JBool b => norm (if b then 1%Z else 0%Z)
  | _ => Raise PyTypeError
  end.

Fixpoint list_set {A : Type} (i : nat) (x : A) (l : list A) : list A :=
  match l, i with
  | [], _ => []
  | _ :: l', O => x :: l'
  | y :: l', S i' => y :: list_set i' x l'
  end.

(* ================================================================== *)
(** ** The theme rewriter *)
(* ================================================================== *)

Definition marker : string := "#".

Section Rewriter.

Variable self : ColorMappings.

(** The test shared by the three rewritten places,
    [if not x.startswith("#"): ... = self.get_color_for_binding(x)]:
    [None] when [x] is a literal and nothing is assigned, [Some c] when
    [c] is to be assigned. A value that is not a [str] has no
    [startswith]. *)
Definition resolve_ref (x : json) : result (option Color) :=
  match x with
  | JStr s =>
      if negb (startswith s marker)
      then c <- get_color_for_binding self s ;; Ok (Some c)
      else Ok None
  | _ => Raise PyAttributeError
  end.

(** Body of [for themeColor in theme["colors"]] when [theme["colors"]]
    is a dictionary [d]. *)
Definition rewrite_color (themeColor : string) (d : dict json)
  : result (dict json) :=
  match dict_get themeColor d with
  | None => Raise (PyKeyError themeColor)
  | Some element_color =>
      r <- resolve_ref element_color ;;
      match r with
      | None => Ok d
      | Some c => Ok (dict_set themeColor (JStr c) d)
      end
  end.

(** The same body when [theme["colors"]] is a list [l]: the iterator
    yields the element at position [i] of the list as it is then, and the
    element is used as a subscript of the list. *)
Definition rewrite_color_at (i : nat) (l : list json) : result (list json) :=
  match nth_error l i with
  | None => Ok l
  | Some themeColor =>
      j <- py_index themeColor (length l) ;;
      match nth_error l j with
      | None => Raise PyIndexError
      | Some element_color =>
          r <- resolve_ref element_color ;;
          match r with
          | None => Ok l
          | Some c => Ok (list_set j (JStr c) l)
          end
      end
  end.

(** The first loop, by the type of [theme["colors"]]. Iterating a
    non-empty string yields a character, which is no valid string
    subscript; numbers, booleans and [None] are not iterable. *)
Definition rewrite_colors (colors : json) : result json :=
  match colors with
  | JObj d => d' <- for_state rewrite_color (dict_keys d) d ;; Ok (JObj d')
  | JArr l =>
      l' <- for_state rewrite_color_at (seq 0 (length l)) l ;; Ok (JArr l')
  | JStr EmptyString => Ok colors
  | _ => Raise PyTypeError
  end.

(** [if key in settings: x = settings[key]; if not x.startswith("#"):
    settings[key] = self.get_color_for_binding(x)], for [key] one of
    ["foreground"] and ["background"]. *)
Definition rewrite_field (key : string) (settings : json) : result json :=
  present <- py_contains_str key settings ;;
  if present then
    x <- py_getitem_str settings key ;;
    r <- resolve_ref x ;;
    match r with
    | None => Ok settings
    | Some c => py_setitem_str settings key (JStr c)
    end
  else Ok settings.

Definition rewrite_settings (settings : json) : result json :=
  settings1 <- rewrite_field "foreground" settings ;;
  rewrite_field "background" settings1.

(** Body of [for obj in token_colors]. [settings] is the very dictionary
    stored in [obj], so its update is seen through [obj]. *)
Definition rewrite_rule (obj : json) : result json :=
  present <- py_contains_str "settings" obj ;;
  if present then
    settings <- py_getitem_str obj "settings" ;;
    settings' <- rewrite_settings settings ;;
    py_setitem_str obj "settings" settings'
  else Ok obj.

(** The second loop, by the type of [token_colors]: a list yields its
    elements, a dictionary its keys and a string its characters (strings
    all, hence never updated). *)
Definition rewrite_token_colors (token_colors : json) : result json :=
  match token_colors with
  | JArr l => l' <- for_each rewrite_rule l ;; Ok (JArr l')
  | JObj d =>
      _ <- for_each rewrite_rule (map JStr (dict_keys d)) ;; Ok token_colors
  | JStr s =>
      _ <- for_each rewrite_rule
             (map (fun c => JStr (String c EmptyString))
                  (list_ascii_of_string s)) ;;
      Ok token_colors
  | _ => Raise PyTypeError
  end.

(** [apply_to_theme], from the parsed document on. *)
Definition apply_to_theme (theme : json) : result json :=
  colors <- py_getitem_str theme "colors" ;;
  colors' <- rewrite_colors colors ;;
  theme1 <- py_setitem_str theme "colors" colors' ;;
  token_colors <- py_getitem_str theme1 "tokenColors" ;;
  token_colors' <- rewrite_token_colors token_colors ;;
  py_setitem_str theme1 "tokenColors" token_colors'.

End Rewriter.

(* ================================================================== *)
(** ** Notions of the specification *)
(* ================================================================== *)

(** The value of [name] in the first group, in insertion order, that
    defines it. *)
Fixpoint first_defined (name : string) (colors : ColorMap) : option Color :=
  match colors with
  | [] => None
  | (_, gr) :: colors' =>
      match dict_get name gr with
      | Some c => Some c
      | None => first_defined name colors'
      end
  end.


(** A string is a literal colour when it starts with the marker. *)
Definition is_literal (s : string) : bool := startswith s marker.

(** Every colour value stored in the colour table is a literal. *)
Definition table_literal (colors : ColorMap) : bool :=
  forallb (fun kg => forallb (fun nv => is_literal (snd nv)) (snd kg)) colors.

(** *** Theme documents

    The shape of a theme document: an object whose ["colors"] field is a
    flat object of strings and whose ["tokenColors"] field is a list of rule
    objects, each with an optional ["settings"] object whose optional
    ["foreground"] and ["background"] fields are strings. [P] is what the
    strings of the rewritten places satisfy. *)

Definition value_is (P : string -> bool) (v : json) : bool :=
  match v with
  | JStr s => P s
  | _ => false
  end.

Definition field_is (P : string -> bool) (key : string) (d : dict json)
  : bool :=
  match dict_get key d with
  | None => true
  | Some v => value_is P v
  end.

Definition settings_shape (P : string -> bool) (settings : json) : bool :=
  match settings with
  | JObj d => field_is P "foreground" d && field_is P "background" d
  | _ => false
  end.

Definition rule_shape (P : string -> bool) (obj : json) : bool :=
  match obj with
  | JObj d => match dict_get "settings" d with
              | None => true
              | Some settings => settings_shape P settings
              end
  | _ => false
  end.

Definition theme_shape (P : string -> bool) (theme : json) : bool :=
  match theme with
  | JObj d =>
      match dict_get "colors" d, dict_get "tokenColors" d with
      | Some (JObj colors), Some (JArr rules) =>
          forallb (fun kv => value_is P (snd kv)) colors &&
          forallb (rule_shape P) rules
      | _, _ => false
      end
  | _ => false
  end.

Fixpoint distinct (ks : list string) : bool :=
  match ks with
  | [] => true
  | k :: ks' => negb (existsb (String.eqb k) ks') && distinct ks'
  end.

Definition theme_colors (theme : json) : dict json :=
  match theme with
  | JObj d => match dict_get "colors" d with
              | Some (JObj colors) => colors
              | _ => []
              end
  | _ => []
  end.

Definition theme_rules (theme : json) : list json :=
  match theme with
  | JObj d => match dict_get "tokenColors" d with
              | Some (JArr rules) => rules
              | _ => []
              end
  | _ => []
  end.

(** The field [key] of the settings object of a rule, if there is one. *)
Definition rule_field (key : string) (obj : json) : option json :=
  match obj with
  | JObj d => match dict_get "settings" d with
              | Some (JObj settings) => dict_get key settings
              | _ => None
              end
  | _ => None
  end.

(** A theme document: the shape above, the keys of ["colors"] distinct as
    the keys of a dictionary are. *)
Definition is_theme_document (theme : json) : bool :=
  theme_shape (fun _ => true) theme &&
  distinct (dict_keys (theme_colors theme)).

(** A theme document all of whose references are literals already. *)
Definition all_literal (theme : json) : bool := theme_shape is_literal theme.

(** *** The rewriter as the specification words it *)

Section SpecRewriter.

Variable self : ColorMappings.

(** A value that does not start with the marker is replaced by the colour
    its binding resolves to; otherwise it is left unchanged. *)
Definition spec_value (v : json) : result json :=
  match v with
  | JStr s =>
      if is_literal s then Ok (JStr s)
      else c <- get_color_for_binding self s ;; Ok (JStr c)
  | _ => Raise PyAttributeError
  end.

(** Each key/value pair of the flat colour map. *)
Definition spec_colors (colors : dict json) : result (dict json) :=
  for_each (fun kv => v <- spec_value (snd kv) ;; Ok (fst kv, v)) colors.

(** The new value of an optional field: [None] when the field is absent. *)
Definition spec_field (key : string) (settings : dict json)
  : result (option json) :=
  match dict_get key settings with
  | None => Ok None
  | Some v => v' <- spec_value v ;; Ok (Some v')
  end.

Definition put_field (key : string) (v : option json) (d : dict json)
  : dict json :=
  match v with
  | None => d
  | Some v' => dict_set key v' d
  end.

(** ["foreground"] and ["background"] are rewritten independently: both
    new values are computed from the settings as they were. *)
Definition spec_settings (settings : dict json) : result (dict json) :=
  fg <- spec_field "foreground" settings ;;
  bg <- spec_field "background" settings ;;
  Ok (put_field "background" bg (put_field "foreground" fg settings)).

Definition spec_rule (obj : json) : result json :=
  match obj with
  | JObj d =>
      match dict_get "settings" d with
      | None => Ok obj
      | Some (JObj settings) =>
          settings' <- spec_settings settings ;;
          Ok (JObj (dict_set "settings" (JObj settings') d))
      | Some _ => Raise PyTypeError
      end
  | _ => Raise PyTypeError
  end.

Definition spec_apply (theme : json) : result json :=
  match theme with
  | JObj d =>
      match dict_get "colors" d, dict_get "tokenColors" d with
      | Some (JObj colors), Some (JArr rules) =>
          colors' <- spec_colors colors ;;
          rules' <- for_each spec_rule rules ;;
          Ok (JObj (dict_set "tokenColors" (JArr rules')
                      (dict_set "colors" (JObj colors') d)))
      | _, _ => Raise PyTypeError
      end
  | _ => Raise PyTypeError
  end.

End SpecRewriter.

(** *** Frames

    What a run may change. [object_frame R o o'] says that the object [o']
    has the keys of the object [o], in the same order, and that the value
    at each key [k] is related to the former one by [R k]; a value that is
    not an object is unchanged. *)

Definition kept (v v' : json) : Prop := v' = v.

Definition any_change (v v' : json) : Prop := True.

Definition entries_frame (R : string -> json -> json -> Prop)
  (d d' : dict json) : Prop :=
  Forall2 (fun kv kv' => fst kv' = fst kv /\ R (fst kv) (snd kv) (snd kv'))
          d d'.

Definition object_frame (R : string -> json -> json -> Prop) (o o' : json)
  : Prop :=
  match o with
  | JObj d => exists d', o' = JObj d' /\ entries_frame R d d'
  | _ => o' = o
  end.

(** The relation [R] at key [key], no change at the other keys. *)
Definition at_key (key : string) (R : json -> json -> Prop) (k : string)
  : json -> json -> Prop :=
  if String.eqb k key then R else kept.

(** In a settings object only ["foreground"] and ["background"] change. *)
Definition settings_rel (k : string) : json -> json -> Prop :=
  if String.eqb k "foreground" || String.eqb k "background"
  then any_change else kept.

(** In a rule only the settings object changes, within its frame. *)
Definition rule_rel : string -> json -> json -> Prop :=
  at_key "settings" (object_frame settings_rel).

(** The rules stay as many, in the same order, each within its frame. *)
Definition rules_frame (token_colors token_colors' : json) : Prop :=
  match token_colors with
  | JArr l =>
      exists l', token_colors' = JArr l' /\
                 Forall2 (object_frame rule_rel) l l'
  | _ => token_colors' = token_colors
  end.

(** The colour map keeps its keys, in the same order. *)
Definition colors_frame (colors colors' : json) : Prop :=
  match colors with
  | JObj d => exists d', colors' = JObj d' /\ dict_keys d' = dict_keys d
  | JArr l => exists l', colors' = JArr l' /\ length l' = length l
  | _ => colors' = colors
  end.

(** In the document only ["colors"] and ["tokenColors"] change. *)
Definition theme_rel (k : string) : json -> json -> Prop :=
  if String.eqb k "colors" then colors_frame
  else if String.eqb k "tokenColors" then rules_frame
  else kept.

(** [o[k] = v] on an object, as a function. *)
Definition json_set (k : string) (v : json) (o : json) : json :=
  match o with
  | JObj d => JObj (dict_set k v d)
  | _ => o
  end.

(** *** Sample tables and document *)

Definition sample_colors : ColorMap :=
  [("blues", [("sky", "#87ceeb"); ("navy", "#000080")]);
   ("greys", [("sky", "#708090"); ("slate", "#626388")])].

Definition sample_bindings : ColorBinding :=
  [("ui", [("border", "sky"); ("shade", "greys.sky")])].

Definition sample_mappings : ColorMappings :=
  __init__ sample_colors sample_bindings.

Definition sample_theme : json :=
  JObj [("name", JStr "Blue Gold");
        ("colors", JObj [("panel.border", JStr "ui.border");
                         ("editor.background", JStr "#ffffff")]);
        ("tokenColors",
         JArr [JObj [("scope", JStr "comment");
                     ("settings", JObj [("foreground", JStr "ui.shade");
                                        ("fontStyle", JStr "italic")])];
               JObj [("scope", JStr "string")]])].

Definition sample_literal_theme : json :=
  JObj [("name", JStr "Blue Gold");
        ("colors", JObj [("panel.border", JStr "#87ceeb");
                         ("editor.background", JStr "#ffffff")]);
        ("tokenColors",
         JArr [JObj [("scope", JStr "comment");
                     ("settings", JObj [("foreground", JStr "#708090");
                                        ("fontStyle", JStr "italic")])];
               JObj [("scope", JStr "string")]])].

(* ================================================================== *)
(** ** Further notions: names, references, outcomes *)
(* ================================================================== *)

(** The qualified name [qual.base]. *)
Definition qualified (qual base : string) : string := qual ++ "." ++ base.

(** The name a decomposition stands for. *)
Definition join_name (qual : option string) (base : string) : string :=
  match qual with
  | None => base
  | Some q => qualified q base
  end.

(** The exceptions of the program's own [raise] statements, as opposed to
    the interpreter's. *)
Definition raised_by_program (e : exn) : bool :=
  match e with
  | MalformedNameError _ | ColorNotFoundError _ _ | GroupNotFoundError _
  | UnqualifiedBindingError _ | CategoryNotFoundError _
  | ElementNotFoundError _ _ => true
  | _ => false
  end.

(** Whether a computation returned or raised, and what it raised. *)
Definition status {A : Type} (r : result A) : result unit :=
  fmap (fun _ => tt) r.

(** The binding references of a theme document, in the order the rewriter
    meets them: the values of ["colors"] that are not literals, then, rule
    by rule, the ["foreground"] and the ["background"] of the settings. *)
Definition reference_of (v : json) : list string :=
  match v with
  | JStr s => if is_literal s then [] else [s]
  | _ => []
  end.

Definition field_references (key : string) (d : dict json) : list string :=
  match dict_get key d with
  | Some v => reference_of v
  | None => []
  end.

Definition rule_references (obj : json) : list string :=
  match obj with
  | JObj d =>
      match dict_get "settings" d with
      | Some (JObj settings) =>
          (field_references "foreground" settings ++
           field_references "background" settings)%list
      | _ => []
      end
  | _ => []
  end.

Definition references (theme : json) : list string :=
  (flat_map (fun kv => reference_of (snd kv)) (theme_colors theme) ++
   flat_map rule_references (theme_rules theme))%list.

(* ================================================================== *)
(** ** Loading the tables *)
(* ================================================================== *)

(** The tables as JSON, and JSON read at the types [__init__] declares for
    its arguments ([ColorMap], a dictionary of dictionaries of strings, and
    the like for the bindings). *)








(* ================================================================== *)
(** ** The entry point *)
(* ================================================================== *)







(** *** Sample files *)



(* ================================================================== *)
(** ** Facts about the string operations *)
(* ================================================================== *)

Lemma contains_char_count (c : ascii) (s : string) :
  contains_char c s = negb (Nat.eqb (count_char c s) 0).
Proof.
  induction s as [|a s IH]; simpl; [reflexivity|].
  destruct (Ascii.eqb a c); simpl; [reflexivity | exact IH].
Qed.

Lemma contains_char_false (c : ascii) (s : string) :
  contains_char c s = false <-> count_char c s = 0.
Proof.
  rewrite contains_char_count, negb_false_iff. apply Nat.eqb_eq.
Qed.

Lemma split_char_nonempty (c : ascii) (s : string) : split_char c s <> [].
Proof.
  destruct s as [|a s]; simpl; [discriminate|].
  destruct (Ascii.eqb a c); [discriminate|].
  destruct (split_char c s); discriminate.
Qed.

Lemma split_char_none (c : ascii) (s : string) :
  count_char c s = 0 -> split_char c s = [s].
Proof.
  induction s as [|a s IH]; simpl; [reflexivity|].
  destruct (Ascii.eqb a c); simpl; [discriminate|].
  intros H. rewrite (IH H). reflexivity.
Qed.

Lemma split_char_one (c : ascii) (s : string) :
  count_char c s = 1 ->
  exists p q, split_char c s = [p; q] /\ s = p ++ String c q /\
              count_char c p = 0 /\ count_char c q = 0.
Proof.
  induction s as [|a s IH]; simpl; [discriminate|].
  destruct (Ascii.eqb_spec a c) as [->|Hne]; simpl; intros H.
  - exists EmptyString, s. injection H as H.
    rewrite (split_char_none _ _ H). auto.
  - destruct (IH H) as (p & q & Hs & Heq & Hp & Hq).
    exists (String a p), q. rewrite Hs. simpl.
    destruct (Ascii.eqb_spec a c); [contradiction|].
    rewrite Heq at 1. auto.
Qed.

Lemma count_char_app (c : ascii) (s t : string) :
  count_char c (s ++ t) = count_char c s + count_char c t.
Proof.
  induction s as [|a s IH]; simpl; [reflexivity|]. rewrite IH. lia.
Qed.

(* ================================================================== *)
(** ** Facts about dictionaries *)
(* ================================================================== *)

Section DictFacts.

Context {V : Type}.
Implicit Types (d : dict V) (k : string) (v : V).

Lemma dict_mem_get k d : dict_mem k d = true <-> dict_get k d <> None.
Proof.
  unfold dict_mem. destruct (dict_get k d); split; congruence.
Qed.

Lemma dict_mem_false k d : dict_mem k d = false <-> dict_get k d = None.
Proof.
  unfold dict_mem. destruct (dict_get k d); split; congruence.
Qed.

Lemma dict_get_set_eq k v d : dict_get k (dict_set k v d) = Some v.
Proof.
  induction d as [|[k' v'] d IH]; simpl.
  - rewrite String.eqb_refl. reflexivity.
  - destruct (String.eqb_spec k' k) as [->|Hne]; simpl.
    + rewrite String.eqb_refl. reflexivity.
    + destruct (String.eqb_spec k' k); [contradiction | exact IH].
Qed.

Lemma dict_get_set_ne k k' v d :
  k <> k' -> dict_get k' (dict_set k v d) = dict_get k' d.
Proof.
  intros Hne. induction d as [|[k0 v0] d IH]; simpl.
  - destruct (String.eqb_spec k k'); [contradiction | reflexivity].
  - destruct (String.eqb_spec k0 k) as [->|Hk]; simpl.
    + destruct (String.eqb_spec k k'); [contradiction | reflexivity].
    + rewrite IH. reflexivity.
Qed.

Lemma dict_set_same k v d : dict_get k d = Some v -> dict_set k v d = d.
Proof.
  induction d as [|[k' v'] d IH]; simpl; [discriminate|].
  destruct (String.eqb_spec k' k) as [->|Hne]; intros H.
  - congruence.
  - rewrite (IH H). reflexivity.
Qed.

Lemma dict_keys_set k v d :
  dict_get k d <> None -> dict_keys (dict_set k v d) = dict_keys d.
Proof.
  induction d as [|[k' v'] d IH]; simpl; [congruence|].
  destruct (String.eqb_spec k' k) as [->|Hne]; simpl; intros H.
  - reflexivity.
  - rewrite (IH H). reflexivity.
Qed.

Lemma dict_set_set k v v' d :
  dict_set k v (dict_set k v' d) = dict_set k v d.
Proof.
  induction d as [|[k0 v0] d IH]; simpl.
  - rewrite String.eqb_refl. reflexivity.
  - destruct (String.eqb_spec k0 k) as [->|Hne]; simpl.
    + rewrite String.eqb_refl. reflexivity.
    + destruct (String.eqb_spec k0 k); [contradiction|]. rewrite IH.
      reflexivity.
Qed.

(** Two assignments to different keys commute once one of the keys is
    present (two fresh keys would be appended in the order assigned). *)
Lemma dict_set_comm k1 k2 v1 v2 d :
  k1 <> k2 -> dict_get k1 d <> None ->
  dict_set k1 v1 (dict_set k2 v2 d) = dict_set k2 v2 (dict_set k1 v1 d).
Proof.
  intros Hne. induction d as [|[k0 v0] d IH]; simpl; [congruence|].
  destruct (String.eqb_spec k0 k1) as [->|H1].
  - intros _. destruct (String.eqb_spec k1 k2); [contradiction|]. simpl.
    rewrite String.eqb_refl.
    destruct (String.eqb_spec k1 k2); [contradiction | reflexivity].
  - intros H. destruct (String.eqb_spec k0 k2) as [->|H2]; simpl.
    + destruct (String.eqb_spec k2 k1); [congruence|].
      rewrite String.eqb_refl. reflexivity.
    + destruct (String.eqb_spec k0 k1); [contradiction|].
      destruct (String.eqb_spec k0 k2); [contradiction|].
      rewrite (IH H). reflexivity.
Qed.

Lemma dict_get_In k v d : dict_get k d = Some v -> In (k, v) d.
Proof.
  induction d as [|[k' v'] d IH]; simpl; [discriminate|].
  destruct (String.eqb_spec k' k) as [->|Hne]; intros H.
  - left. congruence.
  - right. exact (IH H).
Qed.

Lemma dict_get_None_keys k d : dict_get k d = None <-> ~ In k (dict_keys d).
Proof.
  induction d as [|[k' v'] d IH]; simpl; [tauto|].
  destruct (String.eqb_spec k' k) as [->|Hne].
  - split; [discriminate | tauto].
  - rewrite IH. tauto.
Qed.

End DictFacts.

(* ================================================================== *)
(** ** Name decomposition and the two lookup stages *)
(* ================================================================== *)

Lemma decompose_unqualified (name : string) :
  count_char dot name = 0 -> _decompose_name name = Ok (None, name).
Proof.
  intros H. unfold _decompose_name.
  rewrite (proj2 (contains_char_false _ _) H). reflexivity.
Qed.

Lemma decompose_qualified (name : string) :
  count_char dot name = 1 ->
  exists qual base,
    _decompose_name name = Ok (Some qual, base) /\
    name = qual ++ String dot base /\
    count_char dot qual = 0 /\ count_char dot base = 0.
Proof.
  intros H. unfold _decompose_name.
  rewrite contains_char_count, H. simpl.
  destruct (split_char_one _ _ H) as (p & q & Hs & Heq & Hp & Hq).
  rewrite Hs. exists p, q. auto.
Qed.

Lemma decompose_malformed (name : string) :
  1 < count_char dot name ->
  _decompose_name name = Raise (MalformedNameError name).
Proof.
  intros H. unfold _decompose_name.
  rewrite contains_char_count.
  destruct (Nat.eqb_spec (count_char dot name) 0) as [H0|_]; [lia|]. simpl.
  destruct (Nat.ltb_spec 1 (count_char dot name)); [reflexivity | lia].
Qed.

(** The decomposition never fails at the unpacking of the split. *)
Lemma decompose_cases (name : string) :
  (exists q b, _decompose_name name = Ok (q, b)) \/
  _decompose_name name = Raise (MalformedNameError name).
Proof.
  destruct (count_char dot name) as [|[|n]] eqn:E.
  - left. rewrite (decompose_unqualified _ E). eauto.
  - left. destruct (decompose_qualified _ E) as (q & b & H & _). eauto.
  - right. apply decompose_malformed. lia.
Qed.

(** C5. Name decomposition: a name without ['.'] is returned whole with no
    qualifier; a name with exactly one ['.'] is split at it into the
    qualifier before and the base name after; a name with more than one
    ['.'] raises the malformed-name exception, whose message quotes the
    offending name. *)
Theorem decompose_name_spec (name : string) :
  (count_char dot name = 0 -> _decompose_name name = Ok (None, name)) /\
  (count_char dot name = 1 ->
     exists qual base,
       _decompose_name name = Ok (Some qual, base) /\
       name = qual ++ "." ++ base /\
       count_char dot qual = 0 /\ count_char dot base = 0) /\
  (1 < count_char dot name ->
     _decompose_name name = Raise (MalformedNameError name) /\
     exn_message (MalformedNameError name) =
       Some ("A qualified name can only have one '.' (" ++ name ++ ")")).
Proof.
  split; [apply decompose_unqualified|]. split.
  - intros H. destruct (decompose_qualified _ H) as (q & b & H1 & H2 & H3).
    exists q, b. auto.
  - intros H. split; [apply decompose_malformed; exact H | reflexivity].
Qed.

Lemma decompose_name_spec_witness :
  _decompose_name "sky" = Ok (None, "sky") /\
  (exists qual base,
     _decompose_name "blues.sky" = Ok (Some qual, base) /\
     "blues.sky" = qual ++ "." ++ base /\
     count_char dot qual = 0 /\ count_char dot base = 0) /\
  _decompose_name "a.b.c" = Raise (MalformedNameError "a.b.c") /\
  exn_message (MalformedNameError "a.b.c") =
    Some "A qualified name can only have one '.' (a.b.c)".
Proof.
  split; [apply (proj1 (decompose_name_spec "sky")); reflexivity|].
  split; [apply (proj1 (proj2 (decompose_name_spec "blues.sky"))); reflexivity|].
  apply (proj2 (proj2 (decompose_name_spec "a.b.c"))). simpl. lia.
Defined.

Lemma decompose_dotted (name : string) :
  contains_char dot name = true ->
  _decompose_name name = Raise (MalformedNameError name) \/
  exists qual base, _decompose_name name = Ok (Some qual, base).
Proof.
  intros H. rewrite contains_char_count, negb_true_iff, Nat.eqb_neq in H.
  destruct (count_char dot name) as [|[|n]] eqn:E; [congruence| |].
  - right. destruct (decompose_qualified _ E) as (q & b & Hd & _). eauto.
  - left. apply decompose_malformed. lia.
Qed.

Lemma decompose_None_inv (ref name : string) :
  _decompose_name ref = Ok (None, name) ->
  name = ref /\ contains_char dot ref = false.
Proof.
  unfold _decompose_name. destruct (contains_char dot ref); simpl.
  - destruct (Nat.ltb 1 (count_char dot ref)); [discriminate|].
    destruct (split_char dot ref) as [|? [|? [|? ?]]]; discriminate.
  - intros H. injection H as <-. auto.
Qed.

Section Lookups.

Variable self : ColorMappings.

Lemma get_color_for_name_unqualified (ref name : string) :
  _decompose_name ref = Ok (None, name) ->
  get_color_for_name self ref =
    match dict_get name (all_colors self) with
    | Some c => Ok c
    | None => Raise (ColorNotFoundError name None)
    end.
Proof.
  intros H. unfold get_color_for_name. rewrite H. simpl.
  unfold dict_mem. destruct (dict_get name (all_colors self)); reflexivity.
Qed.

Lemma get_color_for_name_qualified (ref qual name : string) :
  _decompose_name ref = Ok (Some qual, name) ->
  get_color_for_name self ref =
    match dict_get qual (color_map self) with
    | None => Raise (GroupNotFoundError qual)
    | Some gr =>
        match dict_get name gr with
        | Some c => Ok c
        | None => Raise (ColorNotFoundError name (Some qual))
        end
    end.
Proof.
  intros H. unfold get_color_for_name. rewrite H. simpl.
  unfold dict_mem. destruct (dict_get qual (color_map self)) as [gr|];
    simpl; [|reflexivity].
  destruct (dict_get name gr); reflexivity.
Qed.

Lemma get_color_name_for_binding_unqualified (ref name : string) :
  _decompose_name ref = Ok (None, name) ->
  get_color_name_for_binding self ref = Raise (UnqualifiedBindingError ref).
Proof.
  intros H. unfold get_color_name_for_binding. rewrite H. reflexivity.
Qed.

Lemma get_color_name_for_binding_qualified (ref qual name : string) :
  _decompose_name ref = Ok (Some qual, name) ->
  get_color_name_for_binding self ref =
    match dict_get qual (bindings self) with
    | None => Raise (CategoryNotFoundError qual)
    | Some cat =>
        match dict_get name cat with
        | Some n => Ok n
        | None => Raise (ElementNotFoundError name qual)
        end
    end.
Proof.
  intros H. unfold get_color_name_for_binding. rewrite H. simpl.
  unfold dict_mem. destruct (dict_get qual (bindings self)) as [cat|];
    simpl; [|reflexivity].
  destruct (dict_get name cat); reflexivity.
Qed.

Lemma get_color_name_for_binding_malformed (ref : string) :
  _decompose_name ref = Raise (MalformedNameError ref) ->
  get_color_name_for_binding self ref = Raise (MalformedNameError ref).
Proof.
  intros H. unfold get_color_name_for_binding. rewrite H. reflexivity.
Qed.

(** C3. Resolution of a colour reference. Without a qualifier the result
    is the entry of the flattened table, and the colour-not-found
    exception is raised exactly when the table has no such entry. With a
    qualifier, the group-not-found exception is raised exactly when no
    group has that key; otherwise the colour-not-found exception is raised
    exactly when the group lacks the name, and otherwise the value stored
    in that very group is returned, whatever the other groups hold. *)
Theorem get_color_for_name_spec (ref : string) :
  (forall name, _decompose_name ref = Ok (None, name) ->
     (forall c, get_color_for_name self ref = Ok c <->
                dict_get name (all_colors self) = Some c) /\
     (get_color_for_name self ref = Raise (ColorNotFoundError name None) <->
      dict_get name (all_colors self) = None)) /\
  (forall qual name, _decompose_name ref = Ok (Some qual, name) ->
     (get_color_for_name self ref = Raise (GroupNotFoundError qual) <->
      dict_get qual (color_map self) = None) /\
     (forall gr, dict_get qual (color_map self) = Some gr ->
        (get_color_for_name self ref =
           Raise (ColorNotFoundError name (Some qual)) <->
         dict_get name gr = None) /\
        (forall c, get_color_for_name self ref = Ok c <->
                   dict_get name gr = Some c))).
Proof.
  split.
  - intros name H. rewrite (get_color_for_name_unqualified _ H).
    destruct (dict_get name (all_colors self)) as [c0|].
    + split; [intros c|]; split; congruence.
    + split; [intros c|]; split; congruence.
  - intros qual name H. rewrite (get_color_for_name_qualified _ H).
    destruct (dict_get qual (color_map self)) as [gr0|].
    + split.
      * destruct (dict_get name gr0); split; discriminate.
      * intros gr Hgr. injection Hgr as ->.
        destruct (dict_get name gr) as [c0|].
        -- split; [|intros c]; split; congruence.
        -- split; [|intros c]; split; congruence.
    + split; [split; reflexivity | discriminate].
Qed.

(** C4. Resolution of a binding reference. The unqualified-binding
    exception is raised exactly when the reference has no qualifier (no
    ['.']). With a qualifier, the category-not-found exception is raised
    exactly when no category has that key; otherwise the
    element-not-found exception is raised exactly when the category lacks
    the element, and otherwise the colour name bound to the element is
    returned as stored, without being resolved to a colour value. *)
Theorem get_color_name_for_binding_spec (ref : string) :
  ((exists b, get_color_name_for_binding self ref =
                Raise (UnqualifiedBindingError b)) <->
   contains_char dot ref = false) /\
  (contains_char dot ref = false ->
   get_color_name_for_binding self ref =
     Raise (UnqualifiedBindingError ref)) /\
  (forall qual name, _decompose_name ref = Ok (Some qual, name) ->
     (get_color_name_for_binding self ref =
        Raise (CategoryNotFoundError qual) <->
      dict_get qual (bindings self) = None) /\
     (forall cat, dict_get qual (bindings self) = Some cat ->
        (get_color_name_for_binding self ref =
           Raise (ElementNotFoundError name qual) <->
         dict_get name cat = None) /\
        (forall n, get_color_name_for_binding self ref = Ok n <->
                   dict_get name cat = Some n))).
Proof.
  assert (Hun : contains_char dot ref = false ->
                get_color_name_for_binding self ref =
                  Raise (UnqualifiedBindingError ref)).
  { intros H. apply get_color_name_for_binding_unqualified with ref.
    apply decompose_unqualified, contains_char_false, H. }
  split; [|split; [exact Hun|]].
  - split; [|eauto].
    intros [b Hb]. destruct (contains_char dot ref) eqn:E; [|reflexivity].
    destruct (decompose_dotted _ E) as [Hm | (q & n & Hq)].
    + rewrite (get_color_name_for_binding_malformed Hm) in Hb. discriminate.
    + rewrite (get_color_name_for_binding_qualified _ Hq) in Hb.
      destruct (dict_get q (bindings self)) as [cat|]; [|discriminate].
      destruct (dict_get n cat); discriminate.
  - intros qual name H. rewrite (get_color_name_for_binding_qualified _ H).
    destruct (dict_get qual (bindings self)) as [cat0|].
    + split.
      * destruct (dict_get name cat0); split; discriminate.
      * intros cat Hcat. injection Hcat as ->.
        destruct (dict_get name cat) as [n0|].
        -- split; [|intros n]; split; congruence.
        -- split; [|intros n]; split; congruence.
    + split; [split; reflexivity | discriminate].
Qed.

(** C6. [get_color_for_binding] is the composition of the two stages: a
    failure of the binding stage, or of the colour stage run on the bound
    name, is the failure of the whole, the same exception; and it succeeds
    exactly when both stages do, with the colour stage's value. *)
Theorem get_color_for_binding_composition (ref : string) :
  get_color_for_binding self ref =
    match get_color_name_for_binding self ref with
    | Ok n => get_color_for_name self n
    | Raise e => Raise e
    end /\
  (forall e, get_color_name_for_binding self ref = Raise e ->
             get_color_for_binding self ref = Raise e) /\
  (forall n e, get_color_name_for_binding self ref = Ok n ->
               get_color_for_name self n = Raise e ->
               get_color_for_binding self ref = Raise e) /\
  (forall c, get_color_for_binding self ref = Ok c <->
             exists n, get_color_name_for_binding self ref = Ok n /\
                       get_color_for_name self n = Ok c).
Proof.
  unfold get_color_for_binding.
  destruct (get_color_name_for_binding self ref) as [n|e]; simpl.
  - split; [reflexivity|]. split; [discriminate|]. split.
    + intros n' e H. injection H as <-. auto.
    + intros c. split; [eauto|]. intros (n' & H & Hc). congruence.
  - split; [reflexivity|]. split; [auto|]. split; [discriminate|].
    intros c. split; [discriminate|]. intros (n & H & _). discriminate.
Qed.

End Lookups.

(* ================================================================== *)
(** ** The flattened colour index *)
(* ================================================================== *)

Lemma add_group_get (name : string) (gr : ColorGroup) (all : dict Color) :
  dict_get name (add_group all gr) =
    match dict_get name all with
    | Some c => Some c
    | None => dict_get name gr
    end.
Proof.
  unfold add_group. revert all.
  induction gr as [|[n v] gr IH]; intros all; simpl.
  - destruct (dict_get name all); reflexivity.
  - rewrite IH. unfold dict_mem.
    destruct (dict_get n all) as [c0|] eqn:En.
    + destruct (dict_get name all) eqn:Ea; [reflexivity|].
      destruct (String.eqb_spec n name) as [->|Hne]; [congruence | reflexivity].
    + destruct (String.eqb_spec n name) as [->|Hne].
      * rewrite dict_get_set_eq, En. reflexivity.
      * rewrite (dict_get_set_ne _ _ Hne). reflexivity.
Qed.

Lemma flatten_groups_get_acc (name : string) (colors : ColorMap)
  (all : dict Color) :
  dict_get name (fold_left (fun acc kg => add_group acc (snd kg)) colors all) =
    match dict_get name all with
    | Some c => Some c
    | None => first_defined name colors
    end.
Proof.
  revert all. induction colors as [|[g gr] colors IH]; intros all; simpl.
  - destruct (dict_get name all); reflexivity.
  - rewrite IH, add_group_get.
    destruct (dict_get name all); [reflexivity|].
    destruct (dict_get name gr); reflexivity.
Qed.

Lemma flatten_groups_get (name : string) (colors : ColorMap) :
  dict_get name (flatten_groups colors) = first_defined name colors.
Proof. apply flatten_groups_get_acc. Qed.

Lemma first_defined_split (name : string) (before after : ColorMap)
  (g : string) (gr : ColorGroup) (c : Color) :
  Forall (fun kg => dict_get name (snd kg) = None) before ->
  dict_get name gr = Some c ->
  first_defined name (before ++ (g, gr) :: after)%list = Some c.
Proof.
  intros Hb Hg. induction Hb as [|[g0 gr0] before H0 _ IH]; simpl.
  - rewrite Hg. reflexivity.
  - simpl in H0. rewrite H0. exact IH.
Qed.

(** C2. The flattened index built by the constructor holds, for every name,
    the value of the first group in insertion order that defines the name.
    Hence, when a group defines [name] and no earlier group does, the index
    maps [name] to that group's value whatever the later groups hold, and
    the unqualified reference [name] resolves to it. *)
Theorem first_group_wins (colors : ColorMap) (bnd : ColorBinding)
  (name : string) :
  dict_get name (all_colors (__init__ colors bnd)) = first_defined name colors /\
  (forall before g gr after c,
     colors = (before ++ (g, gr) :: after)%list ->
     Forall (fun kg => dict_get name (snd kg) = None) before ->
     dict_get name gr = Some c ->
     dict_get name (all_colors (__init__ colors bnd)) = Some c /\
     (contains_char dot name = false ->
      get_color_for_name (__init__ colors bnd) name = Ok c)).
Proof.
  assert (Hflat : dict_get name (all_colors (__init__ colors bnd)) =
                  first_defined name colors) by apply flatten_groups_get.
  split; [exact Hflat|].
  intros before g gr after c -> Hb Hg.
  rewrite Hflat, (@first_defined_split name before after g gr c Hb Hg).
  split; [reflexivity|]. intros Hdot.
  rewrite (get_color_for_name_unqualified _ _ (name := name)).
  - rewrite Hflat, (@first_defined_split name before after g gr c Hb Hg). reflexivity.
  - apply decompose_unqualified, contains_char_false, Hdot.
Qed.

Lemma first_group_wins_witness :
  dict_get "sky" (all_colors sample_mappings) = Some "#87ceeb" /\
  get_color_for_name sample_mappings "sky" = Ok "#87ceeb".
Proof.
  split.
  - apply (proj2 (first_group_wins sample_colors sample_bindings "sky")
             [] "blues" [("sky", "#87ceeb"); ("navy", "#000080")]
             [("greys", [("sky", "#708090"); ("slate", "#626388")])]
             "#87ceeb");
      [reflexivity | constructor | reflexivity].
  - apply (proj2 (first_group_wins sample_colors sample_bindings "sky")
             [] "blues" [("sky", "#87ceeb"); ("navy", "#000080")]
             [("greys", [("sky", "#708090"); ("slate", "#626388")])]
             "#87ceeb");
      [reflexivity | constructor | reflexivity | reflexivity].
Defined.

Lemma get_color_for_name_spec_witness :
  get_color_for_name sample_mappings "slate" = Ok "#626388" /\
  get_color_for_name sample_mappings "greys.sky" = Ok "#708090".
Proof.
  split.
  - apply (proj1 (get_color_for_name_spec sample_mappings "slate")
             "slate" eq_refl). reflexivity.
  - apply (proj2 (get_color_for_name_spec sample_mappings "greys.sky")
             "greys" "sky" eq_refl) with (gr := [("sky", "#708090");
                                                 ("slate", "#626388")]);
      reflexivity.
Defined.

Lemma get_color_name_for_binding_spec_witness :
  get_color_name_for_binding sample_mappings "border" =
    Raise (UnqualifiedBindingError "border") /\
  get_color_name_for_binding sample_mappings "ui.border" = Ok "sky".
Proof.
  split.
  - apply (proj1 (proj2 (get_color_name_for_binding_spec sample_mappings
                           "border"))). reflexivity.
  - apply (proj2 (proj2 (get_color_name_for_binding_spec sample_mappings
                           "ui.border")) "ui" "border" eq_refl)
      with (cat := [("border", "sky"); ("shade", "greys.sky")]);
      reflexivity.
Defined.

Lemma get_color_for_binding_composition_witness :
  get_color_for_binding sample_mappings "border" =
    Raise (UnqualifiedBindingError "border") /\
  get_color_for_binding sample_mappings "ui.tint" =
    Raise (ElementNotFoundError "tint" "ui") /\
  get_color_for_binding sample_mappings "ui.shade" = Ok "#708090".
Proof.
  split; [|split].
  - apply (proj1 (proj2 (get_color_for_binding_composition sample_mappings
                           "border"))). reflexivity.
  - apply (proj1 (proj2 (get_color_for_binding_composition sample_mappings
                           "ui.tint"))). reflexivity.
  - apply (proj2 (proj2 (proj2 (get_color_for_binding_composition
                                  sample_mappings "ui.shade")))).
    exists "greys.sky". split; reflexivity.
Defined.

(* ================================================================== *)
(** ** The scenarios of the specification, evaluated *)
(* ================================================================== *)

Example split_two : split_char dot "blues.sky" = ["blues"; "sky"].
Proof. reflexivity. Qed.

Example split_leading_dot : split_char dot ".sky" = [EmptyString; "sky"].
Proof. reflexivity. Qed.

Example scenario_binding_resolved :
  apply_to_theme
    (__init__ [("blues", [("sky", "#87ceeb")])] [("ui", [("border", "sky")])])
    (JObj [("colors", JObj [("panel.border", JStr "ui.border")]);
           ("tokenColors", JArr [])]) =
  Ok (JObj [("colors", JObj [("panel.border", JStr "#87ceeb")]);
            ("tokenColors", JArr [])]).
Proof. reflexivity. Qed.

Example scenario_literal_unchanged :
  apply_to_theme
    (__init__ [("blues", [("sky", "#87ceeb")])] [("ui", [("border", "sky")])])
    (JObj [("colors", JObj [("panel.border", JStr "#ffffff")]);
           ("tokenColors", JArr [])]) =
  Ok (JObj [("colors", JObj [("panel.border", JStr "#ffffff")]);
            ("tokenColors", JArr [])]).
Proof. reflexivity. Qed.

Example scenario_unqualified_binding :
  apply_to_theme sample_mappings
    (JObj [("colors", JObj [("panel.border", JStr "border")]);
           ("tokenColors", JArr [])]) =
  Raise (UnqualifiedBindingError "border").
Proof. reflexivity. Qed.

Example scenario_missing_token_colors :
  apply_to_theme sample_mappings
    (JObj [("colors", JObj [("panel.border", JStr "ui.border")])]) =
  Raise (PyKeyError "tokenColors").
Proof. reflexivity. Qed.

Example scenario_sample_theme :
  apply_to_theme sample_mappings sample_theme = Ok sample_literal_theme.
Proof. reflexivity. Qed.

(* ================================================================== *)
(** ** Loops *)
(* ================================================================== *)

Lemma for_each_fixed {A : Type} (body : A -> result A) (xs : list A) :
  Forall (fun x => body x = Ok x) xs -> for_each body xs = Ok xs.
Proof.
  induction 1 as [|x xs Hx _ IH]; simpl; [reflexivity|].
  rewrite Hx. simpl. rewrite IH. reflexivity.
Qed.

Lemma for_each_ext {A B : Type} (f g : A -> result B) (xs : list A) :
  Forall (fun x => f x = g x) xs -> for_each f xs = for_each g xs.
Proof.
  induction 1 as [|x xs Hx _ IH]; simpl; [reflexivity|].
  rewrite Hx, IH. reflexivity.
Qed.

Lemma for_each_Forall2 {A B : Type} (R : A -> B -> Prop)
  (body : A -> result B) (xs : list A) (ys : list B) :
  (forall x y, In x xs -> body x = Ok y -> R x y) ->
  for_each body xs = Ok ys -> Forall2 R xs ys.
Proof.
  revert ys. induction xs as [|x xs IH]; simpl; intros ys HR H.
  - injection H as <-. constructor.
  - destruct (body x) as [y|e] eqn:Ex; simpl in H; [|discriminate].
    destruct (for_each body xs) as [ys'|e] eqn:Exs; simpl in H;
      [|discriminate].
    injection H as <-. constructor; [auto|].
    apply IH; [|reflexivity]. intros x0 y0 Hin. apply HR. auto.
Qed.

Lemma for_state_fixed {A S : Type} (body : A -> S -> result S)
  (xs : list A) (s : S) :
  Forall (fun x => body x s = Ok s) xs -> for_state body xs s = Ok s.
Proof.
  induction 1 as [|x xs Hx _ IH]; simpl; [reflexivity|].
  rewrite Hx. simpl. exact IH.
Qed.

Lemma for_state_invariant {A S : Type} (I : S -> Prop)
  (body : A -> S -> result S) (xs : list A) (s s' : S) :
  (forall x s0 s1, body x s0 = Ok s1 -> I s0 -> I s1) ->
  I s -> for_state body xs s = Ok s' -> I s'.
Proof.
  intros Hstep. revert s. induction xs as [|x xs IH]; simpl; intros s Hs H.
  - injection H as <-. exact Hs.
  - destruct (body x s) as [s1|e] eqn:E; simpl in H; [|discriminate].
    apply (IH s1); [|exact H]. exact (Hstep _ _ _ E Hs).
Qed.

Lemma distinct_NoDup (ks : list string) : distinct ks = true <-> NoDup ks.
Proof.
  induction ks as [|k ks IH]; simpl.
  - split; [constructor | reflexivity].
  - rewrite andb_true_iff, negb_true_iff, IH. split.
    + intros [Hk Hks]. constructor; [|exact Hks]. intros Hin.
      assert (existsb (String.eqb k) ks = true); [|congruence].
      apply existsb_exists. exists k. split; [exact Hin|].
      apply String.eqb_refl.
    + intros H. inversion H as [|? ? Hk Hks]; subst. split; [|exact Hks].
      destruct (existsb (String.eqb k) ks) eqn:E; [|reflexivity].
      apply existsb_exists in E. destruct E as (k' & Hin & Heq).
      apply String.eqb_eq in Heq. subst. contradiction.
Qed.

Lemma dict_get_app_fresh {V : Type} (k : string) (pre d : dict V) :
  ~ In k (dict_keys pre) -> dict_get k (pre ++ d)%list = dict_get k d.
Proof.
  induction pre as [|[k0 v0] pre IH]; simpl; [reflexivity|].
  intros H. destruct (String.eqb_spec k0 k); [tauto|]. apply IH. tauto.
Qed.

Lemma dict_set_app_fresh {V : Type} (k : string) (v v0 : V) (pre d : dict V) :
  ~ In k (dict_keys pre) ->
  dict_set k v (pre ++ (k, v0) :: d)%list = (pre ++ (k, v) :: d)%list.
Proof.
  induction pre as [|[k1 v1] pre IH]; simpl.
  - rewrite String.eqb_refl. reflexivity.
  - intros H. destruct (String.eqb_spec k1 k); [tauto|]. rewrite IH; tauto.
Qed.

(* ================================================================== *)
(** ** The rewriter on documents without references *)
(* ================================================================== *)

Section RewriterFacts.

Variable self : ColorMappings.

Lemma resolve_ref_literal (v : json) :
  value_is is_literal v = true -> resolve_ref self v = Ok None.
Proof.
  destruct v; simpl; try discriminate.
  unfold is_literal. intros ->. reflexivity.
Qed.

Lemma rewrite_color_literal (k : string) (d : dict json) :
  forallb (fun kv => value_is is_literal (snd kv)) d = true ->
  In k (dict_keys d) ->
  rewrite_color self k d = Ok d.
Proof.
  intros Hall Hin. unfold rewrite_color.
  destruct (dict_get k d) as [v|] eqn:E.
  - rewrite resolve_ref_literal; [reflexivity|].
    rewrite forallb_forall in Hall. apply (Hall (k, v)).
    apply dict_get_In, E.
  - apply dict_get_None_keys in E. contradiction.
Qed.

Lemma rewrite_colors_literal (d : dict json) :
  forallb (fun kv => value_is is_literal (snd kv)) d = true ->
  rewrite_colors self (JObj d) = Ok (JObj d).
Proof.
  intros Hall. simpl. rewrite for_state_fixed; [reflexivity|].
  apply Forall_forall. intros k Hin. apply rewrite_color_literal; assumption.
Qed.

Lemma rewrite_field_absent (key : string) (d : dict json) :
  dict_get key d = None -> rewrite_field self key (JObj d) = Ok (JObj d).
Proof.
  intros H. unfold rewrite_field. simpl. unfold dict_mem. rewrite H.
  reflexivity.
Qed.

Lemma rewrite_field_literal (key : string) (d : dict json) :
  field_is is_literal key d = true ->
  rewrite_field self key (JObj d) = Ok (JObj d).
Proof.
  unfold field_is. destruct (dict_get key d) as [v|] eqn:E.
  - intros Hv. unfold rewrite_field. simpl. unfold dict_mem. rewrite E.
    simpl. rewrite (resolve_ref_literal _ Hv). reflexivity.
  - intros _. apply rewrite_field_absent, E.
Qed.

Lemma rewrite_settings_literal (settings : json) :
  settings_shape is_literal settings = true ->
  rewrite_settings self settings = Ok settings.
Proof.
  destruct settings; simpl; try discriminate.
  rewrite andb_true_iff. intros [Hfg Hbg]. unfold rewrite_settings.
  rewrite (rewrite_field_literal _ _ Hfg). simpl.
  apply rewrite_field_literal, Hbg.
Qed.

Lemma rewrite_rule_no_settings (d : dict json) :
  dict_get "settings" d = None -> rewrite_rule self (JObj d) = Ok (JObj d).
Proof.
  intros H. unfold rewrite_rule. simpl. unfold dict_mem. rewrite H.
  reflexivity.
Qed.

Lemma rewrite_rule_literal (obj : json) :
  rule_shape is_literal obj = true -> rewrite_rule self obj = Ok obj.
Proof.
  destruct obj; simpl; try discriminate.
  destruct (dict_get "settings" d) as [s|] eqn:E.
  - intros Hs. unfold rewrite_rule. simpl. unfold dict_mem. rewrite E. simpl.
    rewrite (rewrite_settings_literal _ Hs). simpl.
    rewrite (dict_set_same _ _ E). reflexivity.
  - intros _. apply rewrite_rule_no_settings, E.
Qed.

Lemma apply_to_theme_literal (theme : json) :
  all_literal theme = true -> apply_to_theme self theme = Ok theme.
Proof.
  unfold all_literal, theme_shape. destruct theme; try discriminate.
  destruct (dict_get "colors" d) as [[| | | | |?|colors]|] eqn:Ec;
    try discriminate.
  destruct (dict_get "tokenColors" d) as [[| | | | |rules|?]|] eqn:Et;
    try discriminate.
  rewrite andb_true_iff. intros [Hc Hr].
  unfold apply_to_theme. cbn [py_getitem_str bind]. rewrite Ec.
  cbn [bind]. rewrite (rewrite_colors_literal _ Hc).
  cbn [bind py_setitem_str py_getitem_str].
  rewrite (dict_set_same _ _ Ec), Et. cbn [bind rewrite_token_colors].
  rewrite for_each_fixed.
  - cbn [bind]. rewrite (dict_set_same _ _ Et). reflexivity.
  - apply Forall_forall. intros obj Hin. apply rewrite_rule_literal.
    rewrite forallb_forall in Hr. apply Hr, Hin.
Qed.

End RewriterFacts.

(** A successful run, taken apart. *)
Lemma apply_to_theme_inv (self : ColorMappings) (theme theme' : json) :
  apply_to_theme self theme = Ok theme' ->
  exists d c c' tc tc',
    theme = JObj d /\
    dict_get "colors" d = Some c /\ rewrite_colors self c = Ok c' /\
    dict_get "tokenColors" d = Some tc /\
    rewrite_token_colors self tc = Ok tc' /\
    theme' = JObj (dict_set "tokenColors" tc' (dict_set "colors" c' d)).
Proof.
  unfold apply_to_theme. destruct theme; simpl; try discriminate.
  destruct (dict_get "colors" d) as [c|] eqn:Ec; simpl; [|discriminate].
  destruct (rewrite_colors self c) as [c'|e] eqn:Ec'; simpl; [|discriminate].
  rewrite dict_get_set_ne by discriminate.
  destruct (dict_get "tokenColors" d) as [tc|] eqn:Et; simpl; [|discriminate].
  destruct (rewrite_token_colors self tc) as [tc'|e] eqn:Et'; simpl;
    [|discriminate].
  intros H. injection H as <-. exists d, c, c', tc, tc'. auto 10.
Qed.

Section LiteralsKept.

Variable self : ColorMappings.

Lemma rewrite_color_keeps (k0 k : string) (v : json) (d d' : dict json) :
  rewrite_color self k0 d = Ok d' ->
  dict_get k d = Some v /\ value_is is_literal v = true ->
  dict_get k d' = Some v /\ value_is is_literal v = true.
Proof.
  unfold rewrite_color. intros H [Hk Hv]. split; [|exact Hv].
  destruct (dict_get k0 d) as [x|] eqn:E; [|discriminate].
  destruct (String.eqb_spec k0 k) as [->|Hne].
  - assert (x = v) as -> by congruence.
    rewrite (resolve_ref_literal self _ Hv) in H. simpl in H.
    injection H as <-. exact Hk.
  - destruct (resolve_ref self x) as [[c|]|e]; simpl in H; [| |discriminate].
    + injection H as <-. rewrite (dict_get_set_ne _ _ Hne). exact Hk.
    + injection H as <-. exact Hk.
Qed.

Lemma rewrite_colors_keeps (k : string) (v : json) (d : dict json)
  (c' : json) :
  rewrite_colors self (JObj d) = Ok c' ->
  dict_get k d = Some v -> value_is is_literal v = true ->
  exists d', c' = JObj d' /\ dict_get k d' = Some v.
Proof.
  simpl. destruct (for_state (rewrite_color self) (dict_keys d) d)
    as [d'|e] eqn:E; simpl; [|discriminate].
  intros H Hk Hv. injection H as <-. exists d'. split; [reflexivity|].
  apply (for_state_invariant
           (fun s => dict_get k s = Some v /\ value_is is_literal v = true)
           (rewrite_color self) (dict_keys d) d); [|auto|exact E].
  intros k0 s0 s1. apply rewrite_color_keeps.
Qed.

Lemma rewrite_field_keeps (key0 key : string) (v : json) (d : dict json)
  (o' : json) :
  rewrite_field self key0 (JObj d) = Ok o' ->
  dict_get key d = Some v -> value_is is_literal v = true ->
  exists d', o' = JObj d' /\ dict_get key d' = Some v.
Proof.
  unfold rewrite_field. simpl. unfold dict_mem. intros H Hk Hv.
  destruct (dict_get key0 d) as [x|] eqn:E; simpl in H.
  - destruct (String.eqb_spec key0 key) as [->|Hne].
    + assert (x = v) as -> by congruence.
      rewrite (resolve_ref_literal self _ Hv) in H. simpl in H.
      injection H as <-. eauto.
    + destruct (resolve_ref self x) as [[c|]|e]; simpl in H; [| |discriminate].
      * injection H as <-. eexists. split; [reflexivity|].
        rewrite (dict_get_set_ne _ _ Hne). exact Hk.
      * injection H as <-. eauto.
  - injection H as <-. eauto.
Qed.

Lemma rewrite_rule_keeps (key : string) (v : json) (obj obj' : json) :
  rewrite_rule self obj = Ok obj' ->
  rule_field key obj = Some v -> value_is is_literal v = true ->
  rule_field key obj' = Some v.
Proof.
  unfold rule_field. destruct obj; try discriminate.
  destruct (dict_get "settings" d) as [[| | | | | |s]|] eqn:E; try discriminate.
  unfold rewrite_rule. simpl. unfold dict_mem. rewrite E. simpl.
  fold (rewrite_settings self (JObj s)). unfold rewrite_settings.
  destruct (rewrite_field self "foreground" (JObj s)) as [o1|e] eqn:E1; simpl;
    [|discriminate].
  intros H Hk Hv.
  destruct (rewrite_field_keeps _ _ _ E1 Hk Hv) as (s1 & -> & Hk1).
  destruct (rewrite_field self "background" (JObj s1)) as [o2|e] eqn:E2;
    simpl in H; [|discriminate].
  destruct (rewrite_field_keeps _ _ _ E2 Hk1 Hv) as (s2 & -> & Hk2).
  injection H as <-. rewrite dict_get_set_eq. exact Hk2.
Qed.

Lemma apply_to_theme_keeps_colors (theme theme' : json) (k : string)
  (v : json) :
  apply_to_theme self theme = Ok theme' ->
  dict_get k (theme_colors theme) = Some v ->
  value_is is_literal v = true ->
  dict_get k (theme_colors theme') = Some v.
Proof.
  intros H. destruct (apply_to_theme_inv _ _ H)
    as (d & c & c' & tc & tc' & -> & Ec & Ec' & Et & Et' & ->).
  simpl. rewrite Ec. rewrite dict_get_set_ne by discriminate.
  rewrite dict_get_set_eq.
  destruct c; try discriminate. intros Hk Hv.
  destruct (rewrite_colors_keeps _ _ Ec' Hk Hv) as (d' & -> & Hk'). exact Hk'.
Qed.

Lemma apply_to_theme_keeps_rules (theme theme' : json) :
  apply_to_theme self theme = Ok theme' ->
  Forall2 (fun obj obj' =>
             forall key v, rule_field key obj = Some v ->
                           value_is is_literal v = true ->
                           rule_field key obj' = Some v)
          (theme_rules theme) (theme_rules theme').
Proof.
  intros H. destruct (apply_to_theme_inv _ _ H)
    as (d & c & c' & tc & tc' & -> & Ec & Ec' & Et & Et' & ->).
  simpl. rewrite Et, dict_get_set_eq.
  destruct tc; simpl in Et'; try discriminate.
  - destruct (for_each _ _); simpl in Et'; [|discriminate].
    injection Et' as <-. constructor.
  - destruct (for_each (rewrite_rule self) l) as [l'|e] eqn:E; simpl in Et';
      [|discriminate].
    injection Et' as <-.
    apply for_each_Forall2 with (body := rewrite_rule self); [|exact E].
    intros obj obj' _ Hobj key v. exact (rewrite_rule_keeps key obj Hobj).
  - destruct (for_each _ _); simpl in Et'; [|discriminate].
    injection Et' as <-. constructor.
Qed.

End LiteralsKept.

(** C7. Round trip: on a theme document in which every value of
    ["colors"] and every ["foreground"] and ["background"] of every
    ["settings"] object starts with the marker, the rewriter succeeds and
    returns the document itself, whatever the tables are. In any document
    that is processed successfully, a value of ["colors"] and a field of a
    settings object that starts with the marker comes out as it went in. *)
Theorem apply_to_theme_round_trip (self : ColorMappings) :
  (forall theme,
     all_literal theme = true -> apply_to_theme self theme = Ok theme) /\
  (forall theme theme' k v,
     apply_to_theme self theme = Ok theme' ->
     dict_get k (theme_colors theme) = Some v ->
     value_is is_literal v = true ->
     dict_get k (theme_colors theme') = Some v) /\
  (forall theme theme',
     apply_to_theme self theme = Ok theme' ->
     Forall2 (fun obj obj' =>
                forall key v, rule_field key obj = Some v ->
                              value_is is_literal v = true ->
                              rule_field key obj' = Some v)
             (theme_rules theme) (theme_rules theme')).
Proof.
  split; [apply apply_to_theme_literal|].
  split; [intros theme theme' k v; apply apply_to_theme_keeps_colors|].
  apply apply_to_theme_keeps_rules.
Qed.

Lemma apply_to_theme_round_trip_witness :
  apply_to_theme sample_mappings sample_literal_theme =
    Ok sample_literal_theme /\
  dict_get "editor.background" (theme_colors sample_literal_theme) =
    Some (JStr "#ffffff").
Proof.
  pose proof (apply_to_theme_round_trip sample_mappings) as (H1 & H2 & _).
  split.
  - apply H1. reflexivity.
  - apply (H2 sample_theme sample_literal_theme); reflexivity.
Defined.

(* ================================================================== *)
(** ** The rewriter and its specification *)
(* ================================================================== *)

Section Refinement.

Variable self : ColorMappings.

(** What the shared test assigns is what the specification's replacement
    rule yields. *)
Lemma spec_value_resolve_ref (v : json) :
  spec_value self v =
    match resolve_ref self v with
    | Ok None => Ok v
    | Ok (Some c) => Ok (JStr c)
    | Raise e => Raise e
    end.
Proof.
  destruct v; try reflexivity. simpl. unfold is_literal.
  destruct (startswith s marker); simpl; [reflexivity|].
  destruct (get_color_for_binding self s); reflexivity.
Qed.

Lemma rewrite_colors_loop (d pre : dict json) :
  NoDup (dict_keys (pre ++ d)%list) ->
  for_state (rewrite_color self) (dict_keys d) (pre ++ d)%list =
    fmap (app pre) (spec_colors self d).
Proof.
  revert pre. induction d as [|[k v] d IH]; intros pre Hnd.
  - reflexivity.
  - assert (Hfresh : ~ In k (dict_keys pre)).
    { unfold dict_keys in *. rewrite map_app in Hnd. simpl in Hnd.
      apply NoDup_remove_2 in Hnd. rewrite in_app_iff in Hnd. tauto. }
    assert (Hnext : forall v', for_state (rewrite_color self) (dict_keys d)
                                 (pre ++ (k, v') :: d)%list =
                               fmap (app pre)
                                 (fmap (cons (k, v')) (spec_colors self d))).
    { intros v'.
      replace (pre ++ (k, v') :: d)%list with ((pre ++ [(k, v')]) ++ d)%list
        by (rewrite <- app_assoc; reflexivity).
      rewrite IH.
      - destruct (spec_colors self d); simpl; [|reflexivity].
        rewrite <- app_assoc. reflexivity.
      - rewrite <- app_assoc. simpl. unfold dict_keys in *.
        rewrite map_app in *. exact Hnd. }
    simpl. unfold rewrite_color at 1.
    rewrite (@dict_get_app_fresh _ k pre _ Hfresh). simpl. rewrite String.eqb_refl.
    unfold spec_colors. simpl. fold (spec_colors self d).
    rewrite spec_value_resolve_ref.
    destruct (resolve_ref self v) as [[c|]|e]; simpl; [| |reflexivity].
    + rewrite (@dict_set_app_fresh _ k _ _ pre _ Hfresh). rewrite Hnext.
      destruct (spec_colors self d); reflexivity.
    + rewrite Hnext. destruct (spec_colors self d); reflexivity.
Qed.

Lemma rewrite_colors_spec (d : dict json) :
  NoDup (dict_keys d) ->
  rewrite_colors self (JObj d) = fmap JObj (spec_colors self d).
Proof.
  intros Hnd. pose proof (rewrite_colors_loop d [] Hnd) as H.
  simpl in H. simpl. rewrite H.
  destruct (spec_colors self d); reflexivity.
Qed.

(** The new value of one field, from what the code does with it. *)
Lemma rewrite_field_spec (key : string) (d : dict json) :
  rewrite_field self key (JObj d) =
    fmap (fun v => JObj (put_field key v d)) (spec_field self key d).
Proof.
  unfold rewrite_field, spec_field. simpl. unfold dict_mem.
  destruct (dict_get key d) as [v|] eqn:E; simpl; [|reflexivity].
  rewrite spec_value_resolve_ref.
  destruct (resolve_ref self v) as [[c|]|e]; simpl; try reflexivity.
  rewrite (dict_set_same _ _ E). reflexivity.
Qed.

Lemma spec_field_put_other (key key' : string) (v : option json)
  (d : dict json) :
  key <> key' ->
  spec_field self key' (put_field key v d) = spec_field self key' d.
Proof.
  intros Hne. unfold spec_field. destruct v as [v|]; simpl; [|reflexivity].
  rewrite (dict_get_set_ne _ _ Hne). reflexivity.
Qed.

Lemma rewrite_settings_spec (d : dict json) :
  rewrite_settings self (JObj d) = fmap JObj (spec_settings self d).
Proof.
  unfold rewrite_settings, spec_settings.
  rewrite rewrite_field_spec.
  destruct (spec_field self "foreground" d) as [fg|e]; simpl; [|reflexivity].
  rewrite rewrite_field_spec, spec_field_put_other by discriminate.
  destruct (spec_field self "background" d); reflexivity.
Qed.

Lemma rewrite_rule_spec (obj : json) :
  rule_shape (fun _ => true) obj = true ->
  rewrite_rule self obj = spec_rule self obj.
Proof.
  destruct obj; simpl; try discriminate.
  unfold rewrite_rule. simpl. unfold dict_mem.
  destruct (dict_get "settings" d) as [s|] eqn:E; simpl; [|reflexivity].
  destruct s; simpl; try discriminate. intros _.
  fold (rewrite_settings self (JObj d0)). rewrite rewrite_settings_spec.
  destruct (spec_settings self d0); reflexivity.
Qed.

Lemma apply_to_theme_spec (theme : json) :
  is_theme_document theme = true ->
  apply_to_theme self theme = spec_apply self theme.
Proof.
  unfold is_theme_document, theme_shape, theme_colors.
  destruct theme; try discriminate.
  destruct (dict_get "colors" d) as [[| | | | |?|colors]|] eqn:Ec;
    try discriminate.
  destruct (dict_get "tokenColors" d) as [[| | | | |rules|?]|] eqn:Et;
    try discriminate.
  rewrite !andb_true_iff, distinct_NoDup. intros [[_ Hr] Hnd].
  unfold apply_to_theme, spec_apply. cbn [py_getitem_str bind].
  rewrite Ec, Et. cbn [bind]. rewrite (rewrite_colors_spec colors Hnd).
  destruct (spec_colors self colors) as [colors'|e];
    cbn [fmap bind py_setitem_str py_getitem_str]; [|reflexivity].
  rewrite dict_get_set_ne by discriminate. rewrite Et.
  cbn [bind rewrite_token_colors].
  rewrite (for_each_ext (rewrite_rule self) (spec_rule self)).
  - destruct (for_each (spec_rule self) rules); reflexivity.
  - apply Forall_forall. intros obj Hin. apply rewrite_rule_spec.
    rewrite forallb_forall in Hr. apply Hr, Hin.
Qed.

End Refinement.

(** C1. On a theme document the rewriter does what the specification
    says: every value of ["colors"] that starts with the marker is kept and
    every other one is replaced by the colour its binding resolves to; in
    every rule with a ["settings"] object the ["foreground"] and
    ["background"] fields that are present are rewritten by the same rule,
    each from the settings as they were; the first resolution that fails,
    in document order, is the failure of the whole. *)
Theorem apply_to_theme_refines_spec (self : ColorMappings) (theme : json) :
  is_theme_document theme = true ->
  apply_to_theme self theme = spec_apply self theme.
Proof. apply apply_to_theme_spec. Qed.

Lemma apply_to_theme_refines_spec_witness :
  apply_to_theme sample_mappings sample_theme =
    spec_apply sample_mappings sample_theme /\
  spec_apply sample_mappings sample_theme = Ok sample_literal_theme.
Proof.
  split.
  - apply (apply_to_theme_refines_spec sample_mappings sample_theme).
    reflexivity.
  - reflexivity.
Defined.

(* ================================================================== *)
(** ** No reference survives a successful run *)
(* ================================================================== *)

Lemma for_each_Forall_out {A B : Type} (Q : B -> Prop)
  (body : A -> result B) (xs : list A) (ys : list B) :
  (forall x y, body x = Ok y -> Q y) ->
  for_each body xs = Ok ys -> Forall Q ys.
Proof.
  intros HQ H.
  assert (H2 : Forall2 (fun _ y => Q y) xs ys).
  { apply for_each_Forall2 with (body := body); [|exact H]. eauto. }
  clear H. induction H2; constructor; assumption.
Qed.

Lemma first_defined_In (name : string) (colors : ColorMap) (c : Color) :
  first_defined name colors = Some c ->
  exists g gr, In (g, gr) colors /\ In (name, c) gr.
Proof.
  induction colors as [|[g gr] colors IH]; simpl; [discriminate|].
  destruct (dict_get name gr) as [c0|] eqn:E.
  - intros H. injection H as ->. exists g, gr.
    split; [left; reflexivity | apply dict_get_In, E].
  - intros H. destruct (IH H) as (g' & gr' & Hin & Hc). eauto.
Qed.

Lemma get_color_for_name_source (self : ColorMappings) (ref : string)
  (c : Color) :
  get_color_for_name self ref = Ok c ->
  (exists name, dict_get name (all_colors self) = Some c) \/
  (exists qual gr name, dict_get qual (color_map self) = Some gr /\
                        dict_get name gr = Some c).
Proof.
  destruct (_decompose_name ref) as [[[qual|] name]|e] eqn:E.
  - rewrite (get_color_for_name_qualified self _ E).
    destruct (dict_get qual (color_map self)) as [gr|] eqn:Eg; [|discriminate].
    destruct (dict_get name gr) as [c0|] eqn:En; [|discriminate].
    intros H. injection H as ->. right. eauto.
  - rewrite (get_color_for_name_unqualified self _ E).
    destruct (dict_get name (all_colors self)) as [c0|] eqn:En; [|discriminate].
    intros H. injection H as ->. left. eauto.
  - unfold get_color_for_name. rewrite E. discriminate.
Qed.

Section LiteralTable.

Variable colors : ColorMap.
Variable bnd : ColorBinding.
Hypothesis table : table_literal colors = true.

Local Abbreviation self := (__init__ colors bnd).

Lemma table_literal_In (g : string) (gr : ColorGroup) (name : string)
  (c : Color) :
  In (g, gr) colors -> In (name, c) gr -> is_literal c = true.
Proof.
  intros Hg Hc. unfold table_literal in table.
  rewrite forallb_forall in table. specialize (table _ Hg). simpl in table.
  rewrite forallb_forall in table. apply (table _ Hc).
Qed.

(** The flattened index holds literals only. *)
Lemma all_colors_literal (name : string) (c : Color) :
  dict_get name (all_colors self) = Some c -> is_literal c = true.
Proof.
  simpl. rewrite flatten_groups_get. intros H.
  destruct (first_defined_In _ _ H) as (g & gr & Hg & Hc).
  exact (table_literal_In _ _ _ _ Hg Hc).
Qed.

Lemma get_color_for_name_literal (ref : string) (c : Color) :
  get_color_for_name self ref = Ok c -> is_literal c = true.
Proof.
  intros H. destruct (get_color_for_name_source _ _ H)
    as [(name & Hn) | (qual & gr & name & Hg & Hn)].
  - exact (all_colors_literal _ Hn).
  - apply dict_get_In in Hg, Hn. exact (table_literal_In _ _ _ _ Hg Hn).
Qed.

Lemma get_color_for_binding_literal (ref : string) (c : Color) :
  get_color_for_binding self ref = Ok c -> is_literal c = true.
Proof.
  unfold get_color_for_binding.
  destruct (get_color_name_for_binding self ref) as [n|e]; simpl;
    [|discriminate].
  apply get_color_for_name_literal.
Qed.

Lemma spec_value_literal (v v' : json) :
  spec_value self v = Ok v' -> value_is is_literal v' = true.
Proof.
  destruct v; simpl; try discriminate.
  destruct (is_literal s) eqn:E.
  - intros H. injection H as <-. exact E.
  - destruct (get_color_for_binding self s) as [c|e] eqn:Ec; simpl;
      [|discriminate].
    intros H. injection H as <-. simpl.
    exact (get_color_for_binding_literal _ Ec).
Qed.

Lemma spec_colors_literal (d d' : dict json) :
  spec_colors self d = Ok d' ->
  forallb (fun kv => value_is is_literal (snd kv)) d' = true.
Proof.
  intros H. apply forallb_forall, Forall_forall.
  eapply for_each_Forall_out; [|exact H].
  intros [k v] [k' v']. simpl.
  destruct (spec_value self v) as [v0|e] eqn:E; simpl; [|discriminate].
  intros Heq. injection Heq as _ <-. exact (spec_value_literal _ E).
Qed.

Lemma spec_field_literal (key : string) (d : dict json) (r : option json) :
  spec_field self key d = Ok r ->
  field_is is_literal key (put_field key r d) = true.
Proof.
  unfold spec_field, field_is.
  destruct (dict_get key d) as [v|] eqn:E.
  - destruct (spec_value self v) as [v'|e] eqn:Ev; simpl; [|discriminate].
    intros H. injection H as <-. simpl. rewrite dict_get_set_eq.
    exact (spec_value_literal _ Ev).
  - intros H. injection H as <-. simpl. rewrite E. reflexivity.
Qed.

Lemma field_is_put_other (P : string -> bool) (key key' : string)
  (r : option json) (d : dict json) :
  key <> key' -> field_is P key' (put_field key r d) = field_is P key' d.
Proof.
  intros Hne. unfold field_is. destruct r as [v|]; simpl; [|reflexivity].
  rewrite (dict_get_set_ne _ _ Hne). reflexivity.
Qed.

Lemma spec_settings_literal (d d' : dict json) :
  spec_settings self d = Ok d' -> settings_shape is_literal (JObj d') = true.
Proof.
  unfold spec_settings.
  destruct (spec_field self "foreground" d) as [fg|e] eqn:Ef; simpl;
    [|discriminate].
  destruct (spec_field self "background" d) as [bg|e] eqn:Eb; simpl;
    [|discriminate].
  intros H. injection H as <-. apply andb_true_iff. split.
  - rewrite field_is_put_other by discriminate.
    exact (spec_field_literal _ _ Ef).
  - apply spec_field_literal.
    rewrite spec_field_put_other by discriminate. exact Eb.
Qed.

Lemma spec_rule_literal (obj obj' : json) :
  spec_rule self obj = Ok obj' -> rule_shape is_literal obj' = true.
Proof.
  destruct obj; simpl; try discriminate.
  destruct (dict_get "settings" d) as [s|] eqn:E.
  - destruct s; try discriminate.
    destruct (spec_settings self d0) as [s'|e] eqn:Es; simpl; [|discriminate].
    intros H. injection H as <-. unfold rule_shape.
    rewrite dict_get_set_eq. exact (spec_settings_literal _ Es).
  - intros H. injection H as <-. simpl. rewrite E. reflexivity.
Qed.

Lemma spec_apply_literal (theme theme' : json) :
  spec_apply self theme = Ok theme' -> all_literal theme' = true.
Proof.
  destruct theme; simpl; try discriminate.
  destruct (dict_get "colors" d) as [[| | | | |?|cs]|] eqn:Ec;
    try discriminate.
  destruct (dict_get "tokenColors" d) as [[| | | | |rules|?]|] eqn:Et;
    try discriminate.
  destruct (spec_colors self cs) as [cs'|e] eqn:Ecs; simpl; [|discriminate].
  destruct (for_each (spec_rule self) rules) as [rules'|e] eqn:Ers; simpl;
    [|discriminate].
  intros H. injection H as <-. unfold all_literal, theme_shape.
  rewrite dict_get_set_ne by discriminate.
  rewrite !dict_get_set_eq. apply andb_true_iff. split.
  - exact (spec_colors_literal _ Ecs).
  - apply forallb_forall, Forall_forall.
    eapply for_each_Forall_out; [|exact Ers].
    intros obj obj'. apply spec_rule_literal.
Qed.

Lemma apply_to_theme_output_literal (theme theme' : json) :
  is_theme_document theme = true ->
  apply_to_theme self theme = Ok theme' -> all_literal theme' = true.
Proof.
  intros Hdoc. rewrite (apply_to_theme_spec self _ Hdoc).
  apply spec_apply_literal.
Qed.

Lemma apply_to_theme_twice (theme : json) :
  is_theme_document theme = true ->
  (theme' <- apply_to_theme self theme ;; apply_to_theme self theme') =
    apply_to_theme self theme.
Proof.
  intros Hdoc. destruct (apply_to_theme self theme) as [theme'|e] eqn:E;
    simpl; [|reflexivity].
  apply apply_to_theme_literal.
  exact (apply_to_theme_output_literal _ Hdoc E).
Qed.

End LiteralTable.

(** C9. When every colour value of the colour table starts with the marker,
    so does every value of the flattened index, and every theme document
    the rewriter processes successfully comes out with every value of
    ["colors"] and every ["foreground"] and ["background"] of every
    ["settings"] object starting with the marker. *)
Theorem no_reference_survives (colors : ColorMap) (bnd : ColorBinding)
  (theme theme' : json) :
  table_literal colors = true ->
  is_theme_document theme = true ->
  apply_to_theme (__init__ colors bnd) theme = Ok theme' ->
  (forall name c, dict_get name (all_colors (__init__ colors bnd)) = Some c ->
                  is_literal c = true) /\
  all_literal theme' = true.
Proof.
  intros Ht Hdoc Happly. split.
  - intros name c. apply all_colors_literal, Ht.
  - exact (apply_to_theme_output_literal colors bnd Ht _ Hdoc Happly).
Qed.

Lemma no_reference_survives_witness :
  (forall name c, dict_get name (all_colors sample_mappings) = Some c ->
                  is_literal c = true) /\
  all_literal sample_literal_theme = true.
Proof.
  apply (@no_reference_survives sample_colors sample_bindings
           sample_theme sample_literal_theme); reflexivity.
Defined.

(** C10. Idempotence: when every colour value of the colour table starts
    with the marker, running the rewriter on the outcome of a run on a theme
    document gives the outcome of that one run: a successful first run is
    reproduced by the second, and a failed first run is the failure. *)
Theorem apply_to_theme_idempotent (colors : ColorMap) (bnd : ColorBinding)
  (theme : json) :
  table_literal colors = true ->
  is_theme_document theme = true ->
  (theme' <- apply_to_theme (__init__ colors bnd) theme ;;
   apply_to_theme (__init__ colors bnd) theme') =
    apply_to_theme (__init__ colors bnd) theme /\
  (forall theme', apply_to_theme (__init__ colors bnd) theme = Ok theme' ->
                  apply_to_theme (__init__ colors bnd) theme' = Ok theme').
Proof.
  intros Ht Hdoc.
  pose proof (apply_to_theme_twice colors bnd Ht _ Hdoc) as H.
  split; [exact H|]. intros theme' E. rewrite E in H. exact H.
Qed.

Lemma apply_to_theme_idempotent_witness :
  (theme' <- apply_to_theme sample_mappings sample_theme ;;
   apply_to_theme sample_mappings theme') =
    apply_to_theme sample_mappings sample_theme /\
  apply_to_theme sample_mappings sample_literal_theme =
    Ok sample_literal_theme.
Proof.
  destruct (@apply_to_theme_idempotent sample_colors sample_bindings
              sample_theme eq_refl eq_refl) as [H1 H2].
  split; [exact H1 | apply H2; reflexivity].
Defined.

(* ================================================================== *)
(** ** The frame of the rewriter *)
(* ================================================================== *)

Lemma length_list_set {A : Type} (i : nat) (x : A) (l : list A) :
  length (list_set i x l) = length l.
Proof.
  revert i. induction l as [|y l IH]; intros [|i]; simpl; auto.
Qed.

Section FrameRelations.

Variable R : string -> json -> json -> Prop.

Lemma entries_frame_refl (d : dict json) :
  (forall k v, R k v v) -> entries_frame R d d.
Proof.
  intros Hrefl. induction d as [|[k v] d IH]; constructor; [|exact IH].
  split; [reflexivity | apply Hrefl].
Qed.

Lemma object_frame_refl (o : json) :
  (forall k v, R k v v) -> object_frame R o o.
Proof.
  intros Hrefl. destruct o; simpl; try reflexivity.
  exists d. split; [reflexivity | apply entries_frame_refl, Hrefl].
Qed.

End FrameRelations.

Lemma at_key_refl (key : string) (Q : json -> json -> Prop) :
  (forall v, Q v v) -> forall k v, at_key key Q k v v.
Proof.
  intros HQ k v. unfold at_key.
  destruct (String.eqb k key); [apply HQ | reflexivity].
Qed.

Lemma settings_rel_refl (k : string) (v : json) : settings_rel k v v.
Proof.
  unfold settings_rel.
  destruct (String.eqb k "foreground" || String.eqb k "background");
    [exact I | reflexivity].
Qed.

Lemma rule_rel_refl (k : string) (v : json) : rule_rel k v v.
Proof.
  apply at_key_refl. intros s. apply object_frame_refl, settings_rel_refl.
Qed.

Lemma rules_frame_refl (tc : json) : rules_frame tc tc.
Proof.
  destruct tc; simpl; try reflexivity.
  exists l. split; [reflexivity|].
  induction l; constructor; [apply object_frame_refl, rule_rel_refl | auto].
Qed.

Lemma colors_frame_refl (c : json) : colors_frame c c.
Proof. destruct c; simpl; eauto. Qed.

(** An assignment to a key that is present changes the value at that key
    only. *)
Lemma dict_set_frame (Q : json -> json -> Prop) (k : string) (v v' : json)
  (d : dict json) :
  (forall x, Q x x) -> dict_get k d = Some v -> Q v v' ->
  entries_frame (at_key k Q) d (dict_set k v' d).
Proof.
  intros Hrefl Hget HQ. induction d as [|[k0 v0] d IH]; simpl in *;
    [discriminate|].
  destruct (String.eqb_spec k0 k) as [->|Hne].
  - injection Hget as ->. constructor.
    + split; [reflexivity|]. simpl. unfold at_key.
      rewrite String.eqb_refl. exact HQ.
    + apply entries_frame_refl, at_key_refl, Hrefl.
  - constructor; [|exact (IH Hget)].
    split; [reflexivity|]. simpl. unfold at_key.
    destruct (String.eqb_spec k0 k); [contradiction | reflexivity].
Qed.

Lemma entries_frame_trans (R1 R2 R3 : string -> json -> json -> Prop)
  (d d1 d2 : dict json) :
  (forall k a b c, R1 k a b -> R2 k b c -> R3 k a c) ->
  entries_frame R1 d d1 -> entries_frame R2 d1 d2 -> entries_frame R3 d d2.
Proof.
  intros Hcomp H1. revert d2. induction H1 as [|kv kv1 d d1 [Hk Hv] _ IH];
    intros d2 H2; inversion H2 as [|? kv2 ? d2' [Hk2 Hv2] H2']; subst.
  - constructor.
  - constructor; [|exact (IH _ H2')]. split; [congruence|].
    rewrite Hk in Hv2. exact (Hcomp _ _ _ _ Hv Hv2).
Qed.

Section Frame.

Variable self : ColorMappings.

Lemma rewrite_field_frame (key : string) (o o' : json) :
  rewrite_field self key o = Ok o' ->
  object_frame (at_key key any_change) o o'.
Proof.
  assert (Hrefl : forall k v, at_key key any_change k v v)
    by (apply at_key_refl; intros; exact I).
  unfold rewrite_field. destruct o; simpl; try discriminate.
  - destruct (substringb key s); simpl; [discriminate|].
    intros H. injection H as <-. reflexivity.
  - destruct (existsb (is_str key) l); simpl; [discriminate|].
    intros H. injection H as <-. reflexivity.
  - unfold dict_mem. destruct (dict_get key d) as [x|] eqn:E; simpl.
    + destruct (resolve_ref self x) as [[c|]|e]; simpl; [| |discriminate].
      * intros H. injection H as <-. eexists. split; [reflexivity|].
        apply dict_set_frame with (v := x); [intros; exact I | exact E | exact I].
      * intros H. injection H as <-. exists d.
        split; [reflexivity | apply entries_frame_refl, Hrefl].
    + intros H. injection H as <-. exists d.
      split; [reflexivity | apply entries_frame_refl, Hrefl].
Qed.

Lemma settings_rel_compose (k : string) (a b c : json) :
  at_key "foreground" any_change k a b ->
  at_key "background" any_change k b c ->
  settings_rel k a c.
Proof.
  unfold at_key, settings_rel, kept, any_change.
  destruct (String.eqb k "foreground"), (String.eqb k "background"); simpl;
    auto. congruence.
Qed.

Lemma rewrite_settings_frame (o o' : json) :
  rewrite_settings self o = Ok o' -> object_frame settings_rel o o'.
Proof.
  unfold rewrite_settings.
  destruct (rewrite_field self "foreground" o) as [o1|e] eqn:E1; simpl;
    [|discriminate].
  intros E2. apply rewrite_field_frame in E1, E2.
  destruct o; simpl in *; subst; simpl in *; try assumption.
  destruct E1 as (d1 & -> & H1). simpl in E2. destruct E2 as (d2 & -> & H2).
  exists d2. split; [reflexivity|].
  eapply entries_frame_trans;
    [exact settings_rel_compose | exact H1 | exact H2].
Qed.

Lemma rewrite_rule_frame (obj obj' : json) :
  rewrite_rule self obj = Ok obj' -> object_frame rule_rel obj obj'.
Proof.
  unfold rewrite_rule. destruct obj; simpl; try discriminate.
  - destruct (substringb "settings" s); simpl; [discriminate|].
    intros H. injection H as <-. reflexivity.
  - destruct (existsb (is_str "settings") l); simpl; [discriminate|].
    intros H. injection H as <-. reflexivity.
  - unfold dict_mem. destruct (dict_get "settings" d) as [s|] eqn:E; simpl.
    + destruct (rewrite_settings self s) as [s'|e] eqn:Es; simpl;
        [|discriminate].
      intros H. injection H as <-. eexists. split; [reflexivity|].
      apply dict_set_frame with (v := s);
        [intros; apply object_frame_refl, settings_rel_refl | exact E |].
      exact (rewrite_settings_frame _ Es).
    + intros H. injection H as <-. exists d.
      split; [reflexivity | apply entries_frame_refl, rule_rel_refl].
Qed.

Lemma rewrite_token_colors_frame (tc tc' : json) :
  rewrite_token_colors self tc = Ok tc' -> rules_frame tc tc'.
Proof.
  destruct tc; simpl; try discriminate.
  - destruct (for_each _ _); simpl; [|discriminate].
    intros H. injection H as <-. reflexivity.
  - destruct (for_each (rewrite_rule self) l) as [l'|e] eqn:E; simpl;
      [|discriminate].
    intros H. injection H as <-. exists l'. split; [reflexivity|].
    apply for_each_Forall2 with (body := rewrite_rule self); [|exact E].
    intros obj obj' _. apply rewrite_rule_frame.
  - destruct (for_each _ _); simpl; [|discriminate].
    intros H. injection H as <-. reflexivity.
Qed.

Lemma rewrite_color_keys (k : string) (d d' : dict json) :
  rewrite_color self k d = Ok d' -> dict_keys d' = dict_keys d.
Proof.
  unfold rewrite_color. destruct (dict_get k d) as [x|] eqn:E; [|discriminate].
  destruct (resolve_ref self x) as [[c|]|e]; simpl; [| |discriminate].
  - intros H. injection H as <-. apply dict_keys_set. congruence.
  - intros H. injection H as <-. reflexivity.
Qed.

Lemma rewrite_color_at_length (i : nat) (l l' : list json) :
  rewrite_color_at self i l = Ok l' -> length l' = length l.
Proof.
  unfold rewrite_color_at. destruct (nth_error l i) as [x|].
  - destruct (py_index x (length l)) as [j|e]; simpl; [|discriminate].
    destruct (nth_error l j) as [y|]; [|discriminate].
    destruct (resolve_ref self y) as [[c|]|e]; simpl; [| |discriminate].
    + intros H. injection H as <-. apply length_list_set.
    + intros H. injection H as <-. reflexivity.
  - intros H. injection H as <-. reflexivity.
Qed.

Lemma rewrite_colors_frame (c c' : json) :
  rewrite_colors self c = Ok c' -> colors_frame c c'.
Proof.
  destruct c; simpl; try discriminate.
  - destruct s; [|discriminate]. intros H. injection H as <-. reflexivity.
  - destruct (for_state (rewrite_color_at self) (seq 0 (length l)) l)
      as [l'|e] eqn:E; simpl; [|discriminate].
    intros H. injection H as <-. exists l'. split; [reflexivity|].
    apply (for_state_invariant (fun s => length s = length l)
             (rewrite_color_at self) (seq 0 (length l)) l); [|reflexivity|exact E].
    intros i s0 s1 Hs Hl. rewrite <- Hl. exact (rewrite_color_at_length _ _ Hs).
  - destruct (for_state (rewrite_color self) (dict_keys d) d)
      as [d'|e] eqn:E; simpl; [|discriminate].
    intros H. injection H as <-. exists d'. split; [reflexivity|].
    apply (for_state_invariant (fun s => dict_keys s = dict_keys d)
             (rewrite_color self) (dict_keys d) d); [|reflexivity|exact E].
    intros k s0 s1 Hs Hk. rewrite <- Hk. exact (rewrite_color_keys _ _ Hs).
Qed.

Lemma theme_rel_compose (k : string) (a b c : json) :
  at_key "colors" colors_frame k a b ->
  at_key "tokenColors" rules_frame k b c ->
  theme_rel k a c.
Proof.
  unfold at_key, theme_rel, kept.
  destruct (String.eqb_spec k "colors") as [->|Hc]; simpl.
  - intros H ->. exact H.
  - intros ->. destruct (String.eqb k "tokenColors"); auto.
Qed.

Lemma apply_to_theme_frame (theme theme' : json) :
  apply_to_theme self theme = Ok theme' -> object_frame theme_rel theme theme'.
Proof.
  unfold apply_to_theme. destruct theme; simpl; try discriminate.
  destruct (dict_get "colors" d) as [c|] eqn:Ec; simpl; [|discriminate].
  destruct (rewrite_colors self c) as [c'|e] eqn:Ec'; simpl; [|discriminate].
  destruct (dict_get "tokenColors" (dict_set "colors" c' d)) as [tc|] eqn:Et;
    simpl; [|discriminate].
  destruct (rewrite_token_colors self tc) as [tc'|e] eqn:Et'; simpl;
    [|discriminate].
  intros H. injection H as <-. eexists. split; [reflexivity|].
  eapply entries_frame_trans with (d1 := dict_set "colors" c' d);
    [exact theme_rel_compose | |].
  - apply dict_set_frame with (v := c);
      [apply colors_frame_refl | exact Ec |].
    exact (rewrite_colors_frame _ Ec').
  - apply dict_set_frame with (v := tc);
      [apply rules_frame_refl | exact Et |].
    exact (rewrite_token_colors_frame _ Et').
Qed.

End Frame.

Section Independence.

Variable self : ColorMappings.

Lemma rewrite_field_other (key k : string) (v : json) (d : dict json) :
  k <> key ->
  rewrite_field self key (JObj (dict_set k v d)) =
    fmap (json_set k v) (rewrite_field self key (JObj d)).
Proof.
  intros Hne. unfold rewrite_field. simpl. unfold dict_mem.
  rewrite (dict_get_set_ne _ _ Hne).
  destruct (dict_get key d) as [x|] eqn:E; simpl; [|reflexivity].
  destruct (resolve_ref self x) as [[c|]|e]; simpl; try reflexivity.
  rewrite dict_set_comm; [reflexivity | congruence | congruence].
Qed.

Lemma rewrite_settings_other (k : string) (v : json) (d : dict json) :
  k <> "foreground" -> k <> "background" ->
  rewrite_settings self (JObj (dict_set k v d)) =
    fmap (json_set k v) (rewrite_settings self (JObj d)).
Proof.
  intros Hfg Hbg. unfold rewrite_settings.
  rewrite (rewrite_field_other _ _ Hfg).
  destruct (rewrite_field self "foreground" (JObj d)) as [o1|e] eqn:E; simpl;
    [|reflexivity].
  apply rewrite_field_frame in E. destruct E as (d1 & -> & _). simpl.
  apply rewrite_field_other, Hbg.
Qed.

Lemma rewrite_rule_other (k : string) (v : json) (d : dict json) :
  k <> "settings" ->
  rewrite_rule self (JObj (dict_set k v d)) =
    fmap (json_set k v) (rewrite_rule self (JObj d)).
Proof.
  intros Hne. unfold rewrite_rule. simpl. unfold dict_mem.
  rewrite (dict_get_set_ne _ _ Hne).
  destruct (dict_get "settings" d) as [s|] eqn:E; simpl; [|reflexivity].
  destruct (rewrite_settings self s) as [s'|e]; simpl; [|reflexivity].
  rewrite dict_set_comm; [reflexivity | congruence | congruence].
Qed.

Lemma apply_to_theme_other (k : string) (v : json) (d : dict json) :
  k <> "colors" -> k <> "tokenColors" ->
  apply_to_theme self (JObj (dict_set k v d)) =
    fmap (json_set k v) (apply_to_theme self (JObj d)).
Proof.
  intros Hc Ht. unfold apply_to_theme. simpl.
  rewrite (dict_get_set_ne _ _ Hc).
  destruct (dict_get "colors" d) as [c|] eqn:Ec; simpl; [|reflexivity].
  destruct (rewrite_colors self c) as [c'|e]; simpl; [|reflexivity].
  rewrite (dict_set_comm (k1 := "colors") (k2 := k)); [|congruence|congruence].
  rewrite (dict_get_set_ne _ _ Ht).
  destruct (dict_get "tokenColors" (dict_set "colors" c' d)) as [tc|] eqn:Et;
    simpl; [|reflexivity].
  destruct (rewrite_token_colors self tc) as [tc'|e]; simpl; [|reflexivity].
  rewrite dict_set_comm; [reflexivity | congruence | congruence].
Qed.

End Independence.

(** C8. The frame of the rewriter. A successful run returns a document
    with the same top-level keys in the same order, in which only
    ["colors"] and ["tokenColors"] differ from the input: ["colors"] keeps
    its keys; ["tokenColors"] keeps its rules, as many and in the same
    order, each rule keeps its keys and its values except ["settings"],
    and each settings object keeps its keys and its values except
    ["foreground"] and ["background"]. A rule without ["settings"], and a
    settings object without one of the two fields, is passed over without
    an error. No other region is read: assigning any value to any other key
    of the document, of a rule or of a settings object changes the outcome
    of the rewriter by that assignment and nothing else. *)
Theorem rewriter_frame (self : ColorMappings) :
  (forall theme theme',
     apply_to_theme self theme = Ok theme' ->
     object_frame theme_rel theme theme') /\
  (forall d, dict_get "settings" d = None ->
     rewrite_rule self (JObj d) = Ok (JObj d)) /\
  (forall key d, dict_get key d = None ->
     rewrite_field self key (JObj d) = Ok (JObj d)) /\
  (forall k v d, k <> "colors" -> k <> "tokenColors" ->
     apply_to_theme self (JObj (dict_set k v d)) =
       fmap (json_set k v) (apply_to_theme self (JObj d))) /\
  (forall k v d, k <> "settings" ->
     rewrite_rule self (JObj (dict_set k v d)) =
       fmap (json_set k v) (rewrite_rule self (JObj d))) /\
  (forall k v d, k <> "foreground" -> k <> "background" ->
     rewrite_settings self (JObj (dict_set k v d)) =
       fmap (json_set k v) (rewrite_settings self (JObj d))).
Proof.
  split; [intros theme theme'; apply apply_to_theme_frame|].
  split; [intros d; apply rewrite_rule_no_settings|].
  split; [intros key d; apply rewrite_field_absent|].
  split; [intros k v d; apply apply_to_theme_other|].
  split; [intros k v d; apply rewrite_rule_other|].
  intros k v d. apply rewrite_settings_other.
Qed.

Lemma rewriter_frame_witness :
  object_frame theme_rel sample_theme sample_literal_theme /\
  rewrite_rule sample_mappings (JObj [("scope", JStr "string")]) =
    Ok (JObj [("scope", JStr "string")]) /\
  rewrite_field sample_mappings "background"
    (JObj [("foreground", JStr "ui.shade"); ("fontStyle", JStr "italic")]) =
    Ok (JObj [("foreground", JStr "ui.shade"); ("fontStyle", JStr "italic")]) /\
  apply_to_theme sample_mappings
    (JObj (dict_set "name" (JStr "Gold") [("colors", JObj []);
                                          ("tokenColors", JArr [])])) =
    fmap (json_set "name" (JStr "Gold"))
      (apply_to_theme sample_mappings
         (JObj [("colors", JObj []); ("tokenColors", JArr [])])).
Proof.
  pose proof (rewriter_frame sample_mappings) as (Hf & Hr & Hs & Ht & _).
  split; [apply Hf; reflexivity|].
  split; [apply Hr; reflexivity|].
  split; [apply Hs; reflexivity|].
  apply Ht; discriminate.
Defined.

(* ================================================================== *)
(** ** More on names *)
(* ================================================================== *)

Lemma split_char_join (c : ascii) (q b : string) :
  count_char c q = 0 -> count_char c b = 0 ->
  split_char c (q ++ String c b) = [q; b].
Proof.
  intros Hq Hb. induction q as [|a q IH]; simpl in *.
  - rewrite Ascii.eqb_refl, (split_char_none _ _ Hb). reflexivity.
  - destruct (Ascii.eqb a c); [discriminate|]. simpl in Hq.
    rewrite (IH Hq). reflexivity.
Qed.

Lemma count_char_qualified (q b : string) :
  count_char dot (qualified q b) = count_char dot q + 1 + count_char dot b.
Proof.
  unfold qualified. rewrite count_char_app. simpl. lia.
Qed.

(** X1. Joining and decomposing. A qualifier and a base name without ['.']
    joined by a ['.'] decompose into that qualifier and that base name, the
    empty string included on either side; when either part holds a ['.']
    the joined name is malformed, so a group, category, colour or element
    whose key holds a ['.'] cannot be addressed by a qualified name. *)
Theorem decompose_qualified_round_trip (q b : string) :
  (count_char dot q = 0 -> count_char dot b = 0 ->
   _decompose_name (qualified q b) = Ok (Some q, b)) /\
  (count_char dot q + count_char dot b <> 0 ->
   _decompose_name (qualified q b) =
     Raise (MalformedNameError (qualified q b))).
Proof.
  split.
  - intros Hq Hb. unfold _decompose_name.
    rewrite contains_char_count, count_char_qualified, Hq, Hb. simpl.
    change (split_char dot (qualified q b))
      with (split_char dot (q ++ String dot b)).
    rewrite (split_char_join dot q b Hq Hb). reflexivity.
  - intros H. apply decompose_malformed. rewrite count_char_qualified. lia.
Qed.

Lemma decompose_qualified_round_trip_witness :
  _decompose_name (qualified EmptyString "sky") = Ok (Some EmptyString, "sky") /\
  _decompose_name (qualified "my.blues" "sky") =
    Raise (MalformedNameError (qualified "my.blues" "sky")).
Proof.
  split.
  - apply (proj1 (decompose_qualified_round_trip EmptyString "sky"));
      reflexivity.
  - apply (proj2 (decompose_qualified_round_trip "my.blues" "sky")).
    simpl. discriminate.
Defined.

(** X2. What a decomposition tells. When [_decompose_name] returns, the
    qualifier (if any) and the base name hold no ['.'] and joined again
    they give the name back; when it raises, the exception is the
    malformed-name one for that name and the name has at least two ['.']:
    the unpacking of the split never fails. *)
Theorem decompose_name_inversion (name : string) :
  (forall oq b, _decompose_name name = Ok (oq, b) ->
     join_name oq b = name /\ count_char dot b = 0 /\
     (forall q, oq = Some q -> count_char dot q = 0)) /\
  (forall e, _decompose_name name = Raise e ->
     e = MalformedNameError name /\ 1 < count_char dot name).
Proof.
  destruct (count_char dot name) as [|[|n]] eqn:E.
  - rewrite (decompose_unqualified _ E). split.
    + intros oq b H. injection H as <- <-. simpl.
      split; [reflexivity|]. split; [exact E | discriminate].
    + discriminate.
  - destruct (decompose_qualified _ E) as (q & b & -> & Hn & Hq & Hb). split.
    + intros oq b' H. injection H as <- <-. simpl.
      split; [symmetry; exact Hn|]. split; [exact Hb|].
      intros q' H. injection H as <-. exact Hq.
    + discriminate.
  - assert (Hm : 1 < count_char dot name) by lia.
    rewrite (decompose_malformed _ Hm). split; [discriminate|].
    intros e H. injection H as <-. split; [reflexivity | lia].
Qed.

Lemma decompose_name_inversion_witness :
  join_name (Some "blues") "sky" = "blues.sky" /\
  1 < count_char dot "a.b.c".
Proof.
  split.
  - apply (proj1 (decompose_name_inversion "blues.sky") (Some "blues") "sky").
    reflexivity.
  - apply (proj2 (decompose_name_inversion "a.b.c")
             (MalformedNameError "a.b.c")). reflexivity.
Defined.

(* ================================================================== *)
(** ** More on the flattened index *)
(* ================================================================== *)

Lemma dict_set_fresh {V : Type} (k : string) (v : V) (d : dict V) :
  dict_get k d = None -> dict_set k v d = (d ++ [(k, v)])%list.
Proof.
  induction d as [|[k0 v0] d IH]; simpl; [reflexivity|].
  destruct (String.eqb k0 k); [discriminate|].
  intros H. rewrite (IH H). reflexivity.
Qed.

Lemma dict_keys_app {V : Type} (d1 d2 : dict V) :
  dict_keys (d1 ++ d2)%list = (dict_keys d1 ++ dict_keys d2)%list.
Proof. apply map_app. Qed.

Lemma add_group_NoDup (gr : ColorGroup) (all : dict Color) :
  NoDup (dict_keys all) -> NoDup (dict_keys (add_group all gr)).
Proof.
  unfold add_group. revert all.
  induction gr as [|[n v] gr IH]; intros all Hnd; simpl; [exact Hnd|].
  apply IH. unfold dict_mem.
  destruct (dict_get n all) eqn:E; [exact Hnd|].
  rewrite (dict_set_fresh _ _ _ E), dict_keys_app. simpl.
  apply NoDup_app; [exact Hnd | repeat constructor; simpl; tauto |].
  intros k Hk [<-|[]]. apply dict_get_None_keys in E. contradiction.
Qed.

Lemma flatten_groups_NoDup (colors : ColorMap) :
  NoDup (dict_keys (flatten_groups colors)).
Proof.
  unfold flatten_groups.
  assert (H : forall acc, NoDup (dict_keys acc) ->
            NoDup (dict_keys
                     (fold_left (fun a kg => add_group a (snd kg)) colors acc))).
  { induction colors as [|[g gr] colors IH]; intros acc Hacc; simpl;
      [exact Hacc|]. apply IH, add_group_NoDup, Hacc. }
  apply H. constructor.
Qed.

Lemma first_defined_None (name : string) (colors : ColorMap) :
  first_defined name colors = None <->
  Forall (fun kg => dict_get name (snd kg) = None) colors.
Proof.
  induction colors as [|[g gr] colors IH]; simpl.
  - split; [constructor | reflexivity].
  - destruct (dict_get name gr) eqn:E.
    + split; [discriminate|]. intros H. inversion H; subst. simpl in *.
      congruence.
    + rewrite IH. split.
      * intros H. constructor; assumption.
      * intros H. inversion H; assumption.
Qed.

Lemma first_defined_Some (name : string) (colors : ColorMap) (c : Color) :
  first_defined name colors = Some c ->
  exists g gr, In (g, gr) colors /\ dict_get name gr = Some c.
Proof.
  induction colors as [|[g gr] colors IH]; simpl; [discriminate|].
  destruct (dict_get name gr) as [c0|] eqn:E.
  - intros H. injection H as ->. exists g, gr. auto.
  - intros H. destruct (IH H) as (g' & gr' & Hin & Hc). eauto.
Qed.

(** X3. The flattened index is a dictionary of the names of the groups:
    the constructor never enters a name twice, a name is in the index
    exactly when some group defines it, and the value the index holds for a
    name is the value some group gives to that name. *)
Theorem all_colors_names (colors : ColorMap) (bnd : ColorBinding) :
  NoDup (dict_keys (all_colors (__init__ colors bnd))) /\
  (forall name,
     In name (dict_keys (all_colors (__init__ colors bnd))) <->
     exists g gr, In (g, gr) colors /\ In name (dict_keys gr)) /\
  (forall name c,
     dict_get name (all_colors (__init__ colors bnd)) = Some c ->
     exists g gr, In (g, gr) colors /\ dict_get name gr = Some c).
Proof.
  split; [apply flatten_groups_NoDup|]. split.
  - intros name. simpl. split.
    + intros Hin.
      destruct (dict_get name (flatten_groups colors)) as [c|] eqn:E.
      * rewrite flatten_groups_get in E.
        destruct (first_defined_Some _ _ E) as (g & gr & Hg & Hc).
        exists g, gr. split; [exact Hg|].
        apply dict_get_In in Hc. apply in_map_iff. exists (name, c). auto.
      * apply dict_get_None_keys in E. contradiction.
    + intros (g & gr & Hg & Hn).
      destruct (dict_get name (flatten_groups colors)) as [c|] eqn:E.
      * apply dict_get_In in E. apply in_map_iff. exists (name, c). auto.
      * rewrite flatten_groups_get in E. apply first_defined_None in E.
        rewrite Forall_forall in E. specialize (E _ Hg). simpl in E.
        apply dict_get_None_keys in E. contradiction.
  - intros name c. simpl. rewrite flatten_groups_get.
    apply first_defined_Some.
Qed.

Lemma all_colors_names_witness :
  exists g gr, In (g, gr) sample_colors /\ dict_get "slate" gr = Some "#626388".
Proof.
  apply (proj2 (proj2 (all_colors_names sample_colors sample_bindings))
           "slate" "#626388").
  reflexivity.
Defined.

Lemma add_group_distinct (gr : ColorGroup) (all : dict Color) :
  NoDup (dict_keys all ++ dict_keys gr)%list ->
  add_group all gr = (all ++ gr)%list.
Proof.
  unfold add_group. revert all.
  induction gr as [|[n v] gr IH]; intros all Hnd; simpl.
  - rewrite app_nil_r. reflexivity.
  - simpl in Hnd. unfold dict_mem.
    assert (E : dict_get n all = None).
    { apply dict_get_None_keys. apply NoDup_remove_2 in Hnd.
      rewrite in_app_iff in Hnd. tauto. }
    rewrite E, (dict_set_fresh _ _ _ E), IH.
    + rewrite <- app_assoc. reflexivity.
    + rewrite dict_keys_app, <- app_assoc. exact Hnd.
Qed.

Lemma flatten_groups_distinct_acc (colors : ColorMap) (acc : dict Color) :
  NoDup (dict_keys acc ++
         concat (map (fun kg => dict_keys (snd kg)) colors))%list ->
  fold_left (fun a kg => add_group a (snd kg)) colors acc =
    (acc ++ concat (map snd colors))%list.
Proof.
  revert acc. induction colors as [|[g gr] colors IH]; intros acc Hnd; simpl.
  - rewrite app_nil_r. reflexivity.
  - simpl in Hnd. rewrite app_assoc in Hnd.
    rewrite add_group_distinct.
    + rewrite IH; [rewrite <- app_assoc; reflexivity|].
      rewrite dict_keys_app. exact Hnd.
    + apply NoDup_app_remove_r in Hnd. exact Hnd.
Qed.

(** X4. When no colour name occurs twice in the table, within a group or
    across groups, the flattened index is the groups laid end to end, in
    the order of the table. *)
Theorem all_colors_distinct_names (colors : ColorMap) (bnd : ColorBinding) :
  NoDup (concat (map (fun kg => dict_keys (snd kg)) colors)) ->
  all_colors (__init__ colors bnd) = concat (map snd colors).
Proof.
  intros Hnd. simpl. unfold flatten_groups.
  rewrite flatten_groups_distinct_acc; [reflexivity | exact Hnd].
Qed.

Lemma all_colors_distinct_names_witness :
  all_colors (__init__ [("blues", [("sky", "#87ceeb"); ("navy", "#000080")]);
                        ("greys", [("slate", "#626388")])] []) =
    [("sky", "#87ceeb"); ("navy", "#000080"); ("slate", "#626388")].
Proof.
  apply (all_colors_distinct_names
           [("blues", [("sky", "#87ceeb"); ("navy", "#000080")]);
            ("greys", [("slate", "#626388")])] []).
  apply distinct_NoDup. reflexivity.
Defined.

Lemma first_defined_unambiguous (name : string) (colors : ColorMap)
  (c : Color) :
  (exists g gr, In (g, gr) colors /\ dict_get name gr = Some c) ->
  (forall g gr c', In (g, gr) colors -> dict_get name gr = Some c' -> c' = c) ->
  first_defined name colors = Some c.
Proof.
  intros (g & gr & Hg & Hc) Hall.
  destruct (first_defined name colors) as [c'|] eqn:E.
  - destruct (first_defined_Some _ _ E) as (g' & gr' & Hg' & Hc').
    rewrite (Hall _ _ _ Hg' Hc'). reflexivity.
  - apply first_defined_None in E. rewrite Forall_forall in E.
    specialize (E _ Hg). simpl in E. congruence.
Qed.

(** X5. An unambiguous name does not depend on the order of the groups:
    when some group defines [name] and all the groups that define it give
    it the value [c], the index maps [name] to [c] and the unqualified
    reference resolves to [c], for the table in any order. *)
Theorem unambiguous_name_any_order (colors colors' : ColorMap)
  (bnd : ColorBinding) (name : string) (c : Color) :
  (exists g gr, In (g, gr) colors /\ dict_get name gr = Some c) ->
  (forall g gr c', In (g, gr) colors -> dict_get name gr = Some c' -> c' = c) ->
  Permutation colors colors' ->
  dict_get name (all_colors (__init__ colors' bnd)) = Some c /\
  (contains_char dot name = false ->
   get_color_for_name (__init__ colors' bnd) name = Ok c).
Proof.
  intros (g & gr & Hg & Hc) Hall Hperm.
  assert (Hflat : dict_get name (all_colors (__init__ colors' bnd)) = Some c).
  { simpl. rewrite flatten_groups_get. apply first_defined_unambiguous.
    - exists g, gr. split; [|exact Hc].
      exact (Permutation_in _ Hperm Hg).
    - intros g' gr' c' Hin Hc'. apply (Hall g' gr' c'); [|exact Hc'].
      exact (Permutation_in _ (Permutation_sym Hperm) Hin). }
  split; [exact Hflat|]. intros Hdot.
  rewrite (@get_color_for_name_unqualified _ name name).
  - rewrite Hflat. reflexivity.
  - apply decompose_unqualified, contains_char_false, Hdot.
Qed.

Lemma unambiguous_name_any_order_witness :
  dict_get "navy" (all_colors (__init__ (rev sample_colors) sample_bindings)) =
    Some "#000080" /\
  get_color_for_name (__init__ (rev sample_colors) sample_bindings) "navy" =
    Ok "#000080".
Proof.
  assert (H : exists g gr, In (g, gr) sample_colors /\
                           dict_get "navy" gr = Some "#000080").
  { exists "blues", [("sky", "#87ceeb"); ("navy", "#000080")].
    split; [left; reflexivity | reflexivity]. }
  assert (Hall : forall g gr c', In (g, gr) sample_colors ->
                   dict_get "navy" gr = Some c' -> c' = "#000080").
  { intros g gr c' [Heq|[Heq|[]]]; injection Heq as <- <-; simpl;
      congruence. }
  destruct (@unambiguous_name_any_order sample_colors (rev sample_colors)
              sample_bindings "navy" "#000080" H Hall
              (Permutation_rev sample_colors)) as [H1 H2].
  split; [exact H1 | apply H2; reflexivity].
Defined.

(* ================================================================== *)
(** ** More on the lookups *)
(* ================================================================== *)

Section LookupOutcomes.

Variable self : ColorMappings.

Lemma decompose_Some_inv (ref qual name : string) :
  _decompose_name ref = Ok (Some qual, name) ->
  ref = qualified qual name /\
  count_char dot qual = 0 /\ count_char dot name = 0.
Proof.
  intros H.
  destruct (proj1 (decompose_name_inversion ref) _ _ H) as (Hj & Hn & Hq).
  simpl in Hj. split; [symmetry; exact Hj|]. split; [|exact Hn].
  apply Hq. reflexivity.
Qed.

Lemma decompose_qualified_ok (qual name : string) :
  count_char dot qual = 0 -> count_char dot name = 0 ->
  _decompose_name (qualified qual name) = Ok (Some qual, name).
Proof.
  unfold _decompose_name. intros Hq Hn.
  rewrite contains_char_count, count_char_qualified, Hq, Hn. simpl.
  change (split_char dot (qualified qual name))
    with (split_char dot (qual ++ String dot name)).
  rewrite (split_char_join dot qual name Hq Hn). reflexivity.
Qed.

Lemma get_color_for_name_Ok (ref : string) (c : Color) :
  get_color_for_name self ref = Ok c <->
  (count_char dot ref = 0 /\ dict_get ref (all_colors self) = Some c) \/
  (exists g name gr,
     ref = qualified g name /\
     count_char dot g = 0 /\ count_char dot name = 0 /\
     dict_get g (color_map self) = Some gr /\ dict_get name gr = Some c).
Proof.
  split.
  - destruct (_decompose_name ref) as [[[qual|] name]|e] eqn:E.
    + rewrite (get_color_for_name_qualified self _ E).
      destruct (decompose_Some_inv _ E) as (-> & Hq & Hn).
      destruct (dict_get qual (color_map self)) as [gr|] eqn:Eg;
        [|discriminate].
      destruct (dict_get name gr) as [c0|] eqn:En; [|discriminate].
      intros H. injection H as ->. right. exists qual, name, gr. auto.
    + rewrite (get_color_for_name_unqualified self _ E).
      destruct (decompose_None_inv _ E) as [-> Hdot].
      destruct (dict_get ref (all_colors self)) as [c0|] eqn:En;
        [|discriminate].
      intros H. injection H as ->. left.
      split; [apply contains_char_false, Hdot | reflexivity].
    + unfold get_color_for_name. rewrite E. discriminate.
  - intros [[Hdot Hc] | (g & name & gr & -> & Hg & Hn & Hgr & Hc)].
    + rewrite (@get_color_for_name_unqualified self ref ref
                 (decompose_unqualified _ Hdot)), Hc. reflexivity.
    + rewrite (@get_color_for_name_qualified self _ g name
                 (decompose_qualified_ok _ _ Hg Hn)), Hgr, Hc. reflexivity.
Qed.

Lemma get_color_name_for_binding_Ok (ref : string) (n : ColorName) :
  get_color_name_for_binding self ref = Ok n <->
  exists cat elem els,
    ref = qualified cat elem /\
    count_char dot cat = 0 /\ count_char dot elem = 0 /\
    dict_get cat (bindings self) = Some els /\ dict_get elem els = Some n.
Proof.
  split.
  - destruct (_decompose_name ref) as [[[qual|] name]|e] eqn:E.
    + rewrite (get_color_name_for_binding_qualified self _ E).
      destruct (decompose_Some_inv _ E) as (-> & Hq & Hn).
      destruct (dict_get qual (bindings self)) as [els|] eqn:Eg;
        [|discriminate].
      destruct (dict_get name els) as [n0|] eqn:En; [|discriminate].
      intros H. injection H as ->. exists qual, name, els. auto.
    + rewrite (get_color_name_for_binding_unqualified self _ E).
      discriminate.
    + unfold get_color_name_for_binding. rewrite E. discriminate.
  - intros (cat & elem & els & -> & Hc & He & Hels & Hn).
    rewrite (@get_color_name_for_binding_qualified self _ cat elem
               (decompose_qualified_ok _ _ Hc He)), Hels, Hn. reflexivity.
Qed.

Lemma get_color_for_name_Raise (ref : string) (e : exn) :
  get_color_for_name self ref = Raise e ->
  e = MalformedNameError ref \/ e = ColorNotFoundError ref None \/
  exists q n, ref = qualified q n /\
              (e = GroupNotFoundError q \/ e = ColorNotFoundError n (Some q)).
Proof.
  destruct (_decompose_name ref) as [[[qual|] name]|e0] eqn:E.
  - rewrite (get_color_for_name_qualified self _ E).
    destruct (decompose_Some_inv _ E) as (-> & _).
    destruct (dict_get qual (color_map self)) as [gr|].
    + destruct (dict_get name gr); [discriminate|].
      intros H. injection H as <-. right. right. eauto.
    + intros H. injection H as <-. right. right. eauto.
  - rewrite (get_color_for_name_unqualified self _ E).
    destruct (decompose_None_inv _ E) as [-> _].
    destruct (dict_get ref (all_colors self)); [discriminate|].
    intros H. injection H as <-. auto.
  - unfold get_color_for_name. rewrite E. simpl.
    destruct (proj2 (decompose_name_inversion ref) _ E) as [-> _].
    intros H. injection H as <-. auto.
Qed.

Lemma get_color_name_for_binding_Raise (ref : string) (e : exn) :
  get_color_name_for_binding self ref = Raise e ->
  e = MalformedNameError ref \/ e = UnqualifiedBindingError ref \/
  exists q n, ref = qualified q n /\
              (e = CategoryNotFoundError q \/ e = ElementNotFoundError n q).
Proof.
  destruct (_decompose_name ref) as [[[qual|] name]|e0] eqn:E.
  - rewrite (get_color_name_for_binding_qualified self _ E).
    destruct (decompose_Some_inv _ E) as (-> & _).
    destruct (dict_get qual (bindings self)) as [els|].
    + destruct (dict_get name els); [discriminate|].
      intros H. injection H as <-. right. right. eauto.
    + intros H. injection H as <-. right. right. eauto.
  - rewrite (get_color_name_for_binding_unqualified self _ E).
    intros H. injection H as <-. auto.
  - unfold get_color_name_for_binding. rewrite E. simpl.
    destruct (proj2 (decompose_name_inversion ref) _ E) as [-> _].
    intros H. injection H as <-. auto.
Qed.

Lemma get_color_for_binding_program_error (ref : string) (e : exn) :
  get_color_for_binding self ref = Raise e -> raised_by_program e = true.
Proof.
  unfold get_color_for_binding.
  destruct (get_color_name_for_binding self ref) as [n|e0] eqn:E; simpl.
  - intros H. apply get_color_for_name_Raise in H.
    destruct H as [-> | [-> | (q & n0 & _ & [-> | ->])]]; reflexivity.
  - intros H. injection H as <-. apply get_color_name_for_binding_Raise in E.
    destruct E as [-> | [-> | (q & n0 & _ & [-> | ->])]]; reflexivity.
Qed.

End LookupOutcomes.

(** X6. What a resolved binding is. [get_color_for_binding] returns [c]
    exactly when the reference is [cat.elem] with neither part holding a
    ['.'], the category [cat] binds [elem] to a colour name [n], and [n]
    is either a name without ['.'] that the flattened index maps to [c],
    or [g.name] with neither part holding a ['.'] and [c] the value of
    [name] in the group [g]. *)
Theorem get_color_for_binding_resolves (self : ColorMappings) (ref : string)
  (c : Color) :
  get_color_for_binding self ref = Ok c <->
  exists cat elem els n,
    ref = qualified cat elem /\
    count_char dot cat = 0 /\ count_char dot elem = 0 /\
    dict_get cat (bindings self) = Some els /\ dict_get elem els = Some n /\
    ((count_char dot n = 0 /\ dict_get n (all_colors self) = Some c) \/
     (exists g name gr,
        n = qualified g name /\
        count_char dot g = 0 /\ count_char dot name = 0 /\
        dict_get g (color_map self) = Some gr /\ dict_get name gr = Some c)).
Proof.
  unfold get_color_for_binding. split.
  - destruct (get_color_name_for_binding self ref) as [n|e] eqn:E; simpl;
      [|discriminate].
    intros H. apply get_color_name_for_binding_Ok in E.
    destruct E as (cat & elem & els & Href & Hc & He & Hels & Hn).
    exists cat, elem, els, n. repeat (split; [assumption|]).
    apply get_color_for_name_Ok, H.
  - intros (cat & elem & els & n & Href & Hc & He & Hels & Hn & H).
    assert (E : get_color_name_for_binding self ref = Ok n).
    { apply get_color_name_for_binding_Ok. exists cat, elem, els. auto. }
    rewrite E. simpl. apply get_color_for_name_Ok, H.
Qed.

(** X7. The lookups raise the program's own exceptions only, each for the
    name it was given: a colour lookup raises the malformed-name or the
    colour-not-found exception for the reference, or for [q.n] the
    group-not-found exception for [q] or the colour-not-found exception for
    [n] in [q]; a binding lookup likewise with the unqualified-binding,
    category-not-found and element-not-found exceptions; and the
    composition never raises an exception of the interpreter, since every
    subscript of a table is guarded by a membership test. *)
Theorem lookups_raise_program_errors (self : ColorMappings) (ref : string)
  (e : exn) :
  (get_color_for_name self ref = Raise e ->
   e = MalformedNameError ref \/ e = ColorNotFoundError ref None \/
   exists q n, ref = qualified q n /\
               (e = GroupNotFoundError q \/
                e = ColorNotFoundError n (Some q))) /\
  (get_color_name_for_binding self ref = Raise e ->
   e = MalformedNameError ref \/ e = UnqualifiedBindingError ref \/
   exists q n, ref = qualified q n /\
               (e = CategoryNotFoundError q \/
                e = ElementNotFoundError n q)) /\
  (get_color_for_binding self ref = Raise e -> raised_by_program e = true).
Proof.
  split; [apply get_color_for_name_Raise|].
  split; [apply get_color_name_for_binding_Raise|].
  apply get_color_for_binding_program_error.
Qed.

Lemma lookups_raise_program_errors_witness :
  (GroupNotFoundError "reds" = MalformedNameError "reds.rose" \/
   GroupNotFoundError "reds" = ColorNotFoundError "reds.rose" None \/
   exists q n, "reds.rose" = qualified q n /\
               (GroupNotFoundError "reds" = GroupNotFoundError q \/
                GroupNotFoundError "reds" = ColorNotFoundError n (Some q))) /\
  raised_by_program (GroupNotFoundError "reds") = true.
Proof.
  split.
  - apply (proj1 (lookups_raise_program_errors sample_mappings "reds.rose"
                    (GroupNotFoundError "reds"))). reflexivity.
  - apply (proj2 (proj2 (lookups_raise_program_errors
                           (__init__ sample_colors
                                     [("ui", [("accent", "reds.rose")])])
                           "ui.accent" (GroupNotFoundError "reds")))).
    reflexivity.
Defined.

Lemma get_color_for_binding_resolves_witness :
  get_color_for_binding sample_mappings "ui.shade" = Ok "#708090".
Proof.
  apply (proj2 (get_color_for_binding_resolves sample_mappings "ui.shade"
                  "#708090")).
  exists "ui", "shade", [("border", "sky"); ("shade", "greys.sky")],
    "greys.sky".
  repeat (split; [reflexivity|]). right.
  exists "greys", "sky", [("sky", "#708090"); ("slate", "#626388")].
  repeat (split; [reflexivity|]). reflexivity.
Defined.

(* ================================================================== *)
(** ** Success and failure of the rewriter *)
(* ================================================================== *)

Lemma status_bind {A B C D : Type} (r : result A) (r' : result B)
  (k : A -> result C) (k' : B -> result D) :
  status r = status r' ->
  (forall x x', status (k x) = status (k' x')) ->
  status (bind r k) = status (bind r' k').
Proof.
  destruct r, r'; simpl; intros H Hk; try discriminate; auto.
Qed.

Lemma status_Ok {A B : Type} (a : A) (b : B) : status (Ok a) = status (Ok b).
Proof. reflexivity. Qed.

Lemma for_each_app {A B : Type} (f : A -> result B) (l1 l2 : list A) :
  for_each f (l1 ++ l2)%list =
    (y1 <- for_each f l1 ;; y2 <- for_each f l2 ;; Ok (y1 ++ y2)%list).
Proof.
  induction l1 as [|x l1 IH]; simpl.
  - destruct (for_each f l2); reflexivity.
  - destruct (f x); simpl; [|reflexivity]. rewrite IH.
    destruct (for_each f l1); simpl; [|reflexivity].
    destruct (for_each f l2); reflexivity.
Qed.

Lemma status_for_each_flat {A B C D : Type} (f : A -> result B)
  (g : C -> result D) (h : A -> list C) (xs : list A) :
  Forall (fun x => status (f x) = status (for_each g (h x))) xs ->
  status (for_each f xs) = status (for_each g (flat_map h xs)).
Proof.
  induction 1 as [|x xs Hx _ IH]; simpl; [reflexivity|].
  rewrite for_each_app. apply status_bind; [exact Hx|]. intros y y'.
  apply status_bind; [exact IH|]. reflexivity.
Qed.

Lemma for_each_Ok_iff {A B : Type} (f : A -> result B) (xs : list A) :
  (exists ys, for_each f xs = Ok ys) <->
  Forall (fun x => exists y, f x = Ok y) xs.
Proof.
  induction xs as [|x xs IH]; simpl.
  - split; [constructor | eauto].
  - split.
    + intros [ys H]. destruct (f x) as [y|e] eqn:E; simpl in H; [|discriminate].
      destruct (for_each f xs) as [ys'|e]; simpl in H; [|discriminate].
      constructor; [eauto | apply IH; eauto].
    + intros H. inversion H as [|? ? [y Hy] Hxs]; subst.
      apply IH in Hxs. destruct Hxs as [ys Hys]. rewrite Hy, Hys. simpl. eauto.
Qed.

Lemma for_each_Raise_iff {A B : Type} (f : A -> result B) (xs : list A)
  (e : exn) :
  for_each f xs = Raise e <->
  exists before x after,
    xs = (before ++ x :: after)%list /\
    Forall (fun x => exists y, f x = Ok y) before /\ f x = Raise e.
Proof.
  induction xs as [|x xs IH]; simpl.
  - split; [discriminate|]. intros (b & x & a & H & _).
    destruct b; discriminate.
  - split.
    + destruct (f x) as [y|e0] eqn:E; simpl.
      * destruct (for_each f xs) as [ys|e1] eqn:Exs; simpl; [discriminate|].
        intros H. injection H as ->.
        destruct (proj1 IH eq_refl) as (b & x0 & a & -> & Hb & Hx0).
        exists (x :: b), x0, a. split; [reflexivity|].
        split; [constructor; eauto | exact Hx0].
      * intros H. injection H as ->. exists [], x, xs. auto.
    + intros (b & x0 & a & Hxs & Hb & Hx0). destruct b as [|x1 b]; simpl in Hxs.
      * injection Hxs as <- <-. rewrite Hx0. reflexivity.
      * injection Hxs as <- ->. inversion Hb as [|? ? [y Hy] Hb']; subst.
        rewrite Hy. simpl.
        rewrite (proj2 IH); [reflexivity|]. exists b, x0, a. auto.
Qed.

Lemma status_Ok_iff {A : Type} (r : result A) :
  status r = Ok tt <-> exists a, r = Ok a.
Proof.
  destruct r; simpl; split; eauto; try discriminate.
  intros [a H]. discriminate.
Qed.

Lemma status_Raise_iff {A : Type} (r : result A) (e : exn) :
  status r = Raise e <-> r = Raise e.
Proof.
  destruct r; simpl; split; congruence.
Qed.

Section Status.

Variable self : ColorMappings.

Lemma spec_value_status (v : json) :
  value_is (fun _ => true) v = true ->
  status (spec_value self v) =
    status (for_each (get_color_for_binding self) (reference_of v)).
Proof.
  destruct v; try discriminate. intros _. simpl.
  destruct (is_literal s); simpl; [reflexivity|].
  destruct (get_color_for_binding self s); reflexivity.
Qed.

Lemma spec_colors_status (d : dict json) :
  forallb (fun kv => value_is (fun _ => true) (snd kv)) d = true ->
  status (spec_colors self d) =
    status (for_each (get_color_for_binding self)
              (flat_map (fun kv => reference_of (snd kv)) d)).
Proof.
  intros H. apply status_for_each_flat, Forall_forall. intros [k v] Hin.
  rewrite forallb_forall in H. specialize (H _ Hin). simpl in *.
  rewrite <- (spec_value_status _ H).
  destruct (spec_value self v); reflexivity.
Qed.

Lemma spec_field_status (key : string) (d : dict json) :
  field_is (fun _ => true) key d = true ->
  status (spec_field self key d) =
    status (for_each (get_color_for_binding self) (field_references key d)).
Proof.
  unfold field_is, spec_field, field_references.
  destruct (dict_get key d) as [v|]; [|reflexivity].
  intros H. rewrite <- (spec_value_status _ H).
  destruct (spec_value self v); reflexivity.
Qed.

Lemma spec_rule_status (obj : json) :
  rule_shape (fun _ => true) obj = true ->
  status (spec_rule self obj) =
    status (for_each (get_color_for_binding self) (rule_references obj)).
Proof.
  destruct obj; try discriminate. simpl.
  destruct (dict_get "settings" d) as [[| | | | | |s]|]; try discriminate;
    [|reflexivity].
  simpl. rewrite andb_true_iff. intros [Hfg Hbg].
  rewrite for_each_app. unfold spec_settings.
  change (status (settings' <- (fg <- spec_field self "foreground" s ;;
                                bg <- spec_field self "background" s ;;
                                Ok (put_field "background" bg
                                      (put_field "foreground" fg s))) ;;
                  Ok (JObj (dict_set "settings" (JObj settings') d))) =
          status (y1 <- for_each (get_color_for_binding self)
                          (field_references "foreground" s) ;;
                  y2 <- for_each (get_color_for_binding self)
                          (field_references "background" s) ;;
                  Ok (y1 ++ y2)%list)).
  pose proof (spec_field_status _ _ Hfg) as Sfg.
  pose proof (spec_field_status _ _ Hbg) as Sbg.
  destruct (spec_field self "foreground" s),
    (for_each (get_color_for_binding self) (field_references "foreground" s));
    simpl in *; try discriminate; [|exact Sfg].
  destruct (spec_field self "background" s),
    (for_each (get_color_for_binding self) (field_references "background" s));
    simpl in *; try discriminate; [reflexivity | exact Sbg].
Qed.

Lemma apply_to_theme_status (theme : json) :
  is_theme_document theme = true ->
  status (apply_to_theme self theme) =
    status (for_each (get_color_for_binding self) (references theme)).
Proof.
  intros Hdoc. rewrite (apply_to_theme_spec self _ Hdoc).
  unfold is_theme_document, theme_shape in Hdoc. unfold references.
  destruct theme; try discriminate. simpl in *.
  destruct (dict_get "colors" d) as [[| | | | |?|colors]|]; try discriminate.
  destruct (dict_get "tokenColors" d) as [[| | | | |rules|?]|];
    try discriminate.
  rewrite !andb_true_iff in Hdoc. destruct Hdoc as [[Hc Hr] _].
  rewrite for_each_app.
  apply status_bind; [apply spec_colors_status, Hc|]. intros c c'.
  apply status_bind; [|reflexivity].
  apply status_for_each_flat, Forall_forall. intros obj Hin.
  apply spec_rule_status. rewrite forallb_forall in Hr. apply Hr, Hin.
Qed.

End Status.

(** X8. Success and failure of the rewriter on a theme document are those
    of resolving its binding references one after the other, in the order
    of the document (the values of ["colors"], then for each rule the
    ["foreground"] and the ["background"]): the run succeeds exactly when
    every reference resolves, and it raises [e] exactly when [e] is raised
    by a reference all of whose predecessors resolve. *)
Theorem apply_to_theme_outcome (self : ColorMappings) (theme : json) :
  is_theme_document theme = true ->
  status (apply_to_theme self theme) =
    status (for_each (get_color_for_binding self) (references theme)) /\
  ((exists theme', apply_to_theme self theme = Ok theme') <->
   Forall (fun s => exists c, get_color_for_binding self s = Ok c)
          (references theme)) /\
  (forall e,
     apply_to_theme self theme = Raise e <->
     exists before s after,
       references theme = (before ++ s :: after)%list /\
       Forall (fun s => exists c, get_color_for_binding self s = Ok c) before /\
       get_color_for_binding self s = Raise e).
Proof.
  intros Hdoc. pose proof (apply_to_theme_status self _ Hdoc) as H.
  split; [exact H|]. split.
  - rewrite <- for_each_Ok_iff.
    rewrite <- (status_Ok_iff (apply_to_theme self theme)).
    rewrite <- (status_Ok_iff
                  (for_each (get_color_for_binding self) (references theme))).
    rewrite H. reflexivity.
  - intros e. rewrite <- for_each_Raise_iff.
    rewrite <- (status_Raise_iff (apply_to_theme self theme) e).
    rewrite <- (status_Raise_iff
                  (for_each (get_color_for_binding self) (references theme)) e).
    rewrite H. reflexivity.
Qed.

Lemma apply_to_theme_outcome_witness :
  references sample_theme = ["ui.border"; "ui.shade"] /\
  (exists theme', apply_to_theme sample_mappings sample_theme = Ok theme').
Proof.
  split; [reflexivity|].
  apply (proj1 (proj2 (apply_to_theme_outcome sample_mappings sample_theme
                         eq_refl))).
  repeat constructor; eexists; reflexivity.
Defined.

(** X9. On a theme document the rewriter raises the program's own
    exceptions only: no missing key, type or attribute error of the
    interpreter. *)
Theorem apply_to_theme_program_errors (self : ColorMappings) (theme : json)
  (e : exn) :
  is_theme_document theme = true ->
  apply_to_theme self theme = Raise e -> raised_by_program e = true.
Proof.
  intros Hdoc H. apply status_Raise_iff in H.
  rewrite (apply_to_theme_status self _ Hdoc) in H.
  apply status_Raise_iff, for_each_Raise_iff in H.
  destruct H as (b & s & a & _ & _ & Hs).
  exact (get_color_for_binding_program_error _ _ Hs).
Qed.

Lemma apply_to_theme_program_errors_witness :
  raised_by_program (UnqualifiedBindingError "border") = true.
Proof.
  apply (@apply_to_theme_program_errors sample_mappings
           (JObj [("colors", JObj [("panel.border", JStr "border")]);
                  ("tokenColors", JArr [])])
           (UnqualifiedBindingError "border")); reflexivity.
Defined.

(* ================================================================== *)
(** ** The rewritten document *)
(* ================================================================== *)

Section Rewritten.

Variable self : ColorMappings.

Lemma spec_value_str (v v' : json) :
  spec_value self v = Ok v' -> value_is (fun _ => true) v' = true.
Proof.
  destruct v; try discriminate. simpl. destruct (is_literal s).
  - intros H. injection H as <-. reflexivity.
  - destruct (get_color_for_binding self s); simpl; [|discriminate].
    intros H. injection H as <-. reflexivity.
Qed.

Lemma spec_colors_lookup (d d' : dict json) (k : string) (v : json) :
  spec_colors self d = Ok d' -> dict_get k d = Some v ->
  exists v', spec_value self v = Ok v' /\ dict_get k d' = Some v'.
Proof.
  unfold spec_colors. revert d'.
  induction d as [|[k0 v0] d IH]; intros d'; simpl; [discriminate|].
  destruct (spec_value self v0) as [v0'|e] eqn:E0; simpl; [|discriminate].
  destruct (for_each _ d) as [r|e] eqn:Er; simpl; [|discriminate].
  intros H. injection H as <-. simpl.
  destruct (String.eqb k0 k).
  - intros Hv. injection Hv as <-. eauto.
  - apply IH. reflexivity.
Qed.

Lemma spec_colors_keys (d d' : dict json) :
  spec_colors self d = Ok d' -> dict_keys d' = dict_keys d.
Proof.
  unfold spec_colors. revert d'.
  induction d as [|[k0 v0] d IH]; intros d'; simpl.
  - intros H. injection H as <-. reflexivity.
  - destruct (spec_value self v0) as [v0'|e]; simpl; [|discriminate].
    destruct (for_each _ d) as [r|e]; simpl; [|discriminate].
    intros H. injection H as <-. simpl. rewrite (IH r eq_refl). reflexivity.
Qed.

Lemma spec_colors_str (d d' : dict json) :
  spec_colors self d = Ok d' ->
  forallb (fun kv => value_is (fun _ => true) (snd kv)) d' = true.
Proof.
  intros H. apply forallb_forall, Forall_forall.
  eapply for_each_Forall_out; [|exact H].
  intros [k v] [k' v']. simpl.
  destruct (spec_value self v) as [v0|e] eqn:E; simpl; [|discriminate].
  intros Heq. injection Heq as _ <-. exact (spec_value_str _ E).
Qed.

Lemma spec_field_lookup (key : string) (d : dict json) (r : option json)
  (v : json) :
  spec_field self key d = Ok r -> dict_get key d = Some v ->
  exists v', spec_value self v = Ok v' /\ r = Some v'.
Proof.
  unfold spec_field. intros H Hv. rewrite Hv in H.
  destruct (spec_value self v) as [v'|e]; simpl in H; [|discriminate].
  injection H as <-. eauto.
Qed.

Lemma spec_settings_lookup (d d' : dict json) (key : string) (v : json) :
  spec_settings self d = Ok d' ->
  key = "foreground" \/ key = "background" ->
  dict_get key d = Some v ->
  exists v', spec_value self v = Ok v' /\ dict_get key d' = Some v'.
Proof.
  unfold spec_settings.
  destruct (spec_field self "foreground" d) as [fg|e] eqn:Ef; simpl;
    [|discriminate].
  destruct (spec_field self "background" d) as [bg|e] eqn:Eb; simpl;
    [|discriminate].
  intros H [->| ->] Hv; injection H as <-.
  - destruct (spec_field_lookup _ _ Ef Hv) as (v' & Hv' & ->).
    exists v'. split; [exact Hv'|].
    destruct bg as [b|]; simpl.
    + rewrite dict_get_set_ne by discriminate. apply dict_get_set_eq.
    + apply dict_get_set_eq.
  - destruct (spec_field_lookup _ _ Eb Hv) as (v' & Hv' & ->).
    exists v'. split; [exact Hv'|]. simpl. apply dict_get_set_eq.
Qed.

Lemma spec_settings_str (d d' : dict json) :
  spec_settings self d = Ok d' ->
  settings_shape (fun _ => true) (JObj d') = true.
Proof.
  intros H. simpl. apply andb_true_iff.
  assert (Hkey : forall key, key = "foreground" \/ key = "background" ->
                   field_is (fun _ => true) key d' = true).
  { intros key Hk. unfold field_is.
    destruct (dict_get key d') as [v'|] eqn:E'; [|reflexivity].
    destruct (dict_get key d) as [v|] eqn:E.
    - destruct (spec_settings_lookup _ H Hk E) as (v0 & Hv0 & Hget).
      rewrite Hget in E'. injection E' as <-. exact (spec_value_str _ Hv0).
    - exfalso. revert H E'. unfold spec_settings.
      destruct (spec_field self "foreground" d) as [fg|e] eqn:Ef; simpl;
        [|discriminate].
      destruct (spec_field self "background" d) as [bg|e] eqn:Eb; simpl;
        [|discriminate].
      intros H. injection H as <-. unfold spec_field in Ef, Eb.
      destruct Hk as [->| ->].
      + rewrite E in Ef. injection Ef as <-. simpl.
        destruct bg as [b|]; simpl;
          [rewrite dict_get_set_ne by discriminate|]; congruence.
      + rewrite E in Eb. injection Eb as <-. simpl.
        destruct fg as [f|]; simpl;
          [rewrite dict_get_set_ne by discriminate|]; congruence. }
  split; apply Hkey; auto.
Qed.

Lemma spec_rule_str (obj obj' : json) :
  spec_rule self obj = Ok obj' -> rule_shape (fun _ => true) obj' = true.
Proof.
  destruct obj; simpl; try discriminate.
  destruct (dict_get "settings" d) as [s|] eqn:E.
  - destruct s; try discriminate.
    destruct (spec_settings self d0) as [s'|e] eqn:Es; simpl; [|discriminate].
    intros H. injection H as <-. unfold rule_shape.
    rewrite dict_get_set_eq. exact (spec_settings_str _ Es).
  - intros H. injection H as <-. simpl. rewrite E. reflexivity.
Qed.

Lemma spec_rule_lookup (obj obj' : json) (key : string) (v : json) :
  spec_rule self obj = Ok obj' ->
  key = "foreground" \/ key = "background" ->
  rule_field key obj = Some v ->
  exists v', spec_value self v = Ok v' /\ rule_field key obj' = Some v'.
Proof.
  destruct obj; simpl; try discriminate.
  destruct (dict_get "settings" d) as [[| | | | | |s]|] eqn:E; try discriminate.
  destruct (spec_settings self s) as [s'|e] eqn:Es; simpl; [|discriminate].
  intros H Hk Hv. injection H as <-. simpl. rewrite dict_get_set_eq.
  exact (spec_settings_lookup _ Es Hk Hv).
Qed.

(** A successful run of the specification's rewriter, taken apart. *)
Lemma spec_apply_inv (theme theme' : json) :
  spec_apply self theme = Ok theme' ->
  exists d colors colors' rules rules',
    theme = JObj d /\
    dict_get "colors" d = Some (JObj colors) /\
    dict_get "tokenColors" d = Some (JArr rules) /\
    spec_colors self colors = Ok colors' /\
    for_each (spec_rule self) rules = Ok rules' /\
    theme' = JObj (dict_set "tokenColors" (JArr rules')
                     (dict_set "colors" (JObj colors') d)) /\
    theme_colors theme' = colors' /\ theme_rules theme' = rules'.
Proof.
  destruct theme; simpl; try discriminate.
  destruct (dict_get "colors" d) as [[| | | | |?|cs]|] eqn:Ec;
    try discriminate.
  destruct (dict_get "tokenColors" d) as [[| | | | |rules|?]|] eqn:Et;
    try discriminate.
  destruct (spec_colors self cs) as [cs'|e] eqn:Ecs; simpl; [|discriminate].
  destruct (for_each (spec_rule self) rules) as [rules'|e] eqn:Ers; simpl;
    [|discriminate].
  intros H. injection H as <-. exists d, cs, cs', rules, rules'. simpl.
  rewrite dict_get_set_ne by discriminate. rewrite !dict_get_set_eq.
  repeat split; assumption.
Qed.

Lemma apply_to_theme_document (theme theme' : json) :
  is_theme_document theme = true ->
  apply_to_theme self theme = Ok theme' ->
  is_theme_document theme' = true.
Proof.
  intros Hdoc. rewrite (apply_to_theme_spec self _ Hdoc). intros H.
  destruct (spec_apply_inv _ H)
    as (d & cs & cs' & rs & rs' & -> & Ec & Et & Hcs & Hrs & -> & Hc' & _).
  unfold is_theme_document in *. rewrite Hc'.
  rewrite andb_true_iff in *. destruct Hdoc as [_ Hd]. split.
  - unfold theme_shape. rewrite dict_get_set_ne by discriminate.
    rewrite !dict_get_set_eq. apply andb_true_iff. split.
    + exact (spec_colors_str _ Hcs).
    + apply forallb_forall, Forall_forall.
      eapply for_each_Forall_out; [|exact Hrs].
      intros obj obj'. apply spec_rule_str.
  - rewrite (spec_colors_keys _ Hcs). simpl in Hd. rewrite Ec in Hd. exact Hd.
Qed.

Lemma apply_to_theme_resolved_colors (theme theme' : json) (k s : string) :
  is_theme_document theme = true ->
  apply_to_theme self theme = Ok theme' ->
  dict_get k (theme_colors theme) = Some (JStr s) ->
  is_literal s = false ->
  exists c, get_color_for_binding self s = Ok c /\
            dict_get k (theme_colors theme') = Some (JStr c).
Proof.
  intros Hdoc. rewrite (apply_to_theme_spec self _ Hdoc). intros H.
  destruct (spec_apply_inv _ H)
    as (d & cs & cs' & rs & rs' & -> & Ec & Et & Hcs & Hrs & -> & Hc' & _).
  rewrite Hc'. simpl. rewrite Ec. intros Hk Hlit.
  destruct (spec_colors_lookup _ _ Hcs Hk) as (v' & Hv' & Hget).
  simpl in Hv'. rewrite Hlit in Hv'.
  destruct (get_color_for_binding self s) as [c|e]; simpl in Hv';
    [|discriminate].
  injection Hv' as <-. eauto.
Qed.

Lemma apply_to_theme_resolved_rules (theme theme' : json) :
  is_theme_document theme = true ->
  apply_to_theme self theme = Ok theme' ->
  Forall2 (fun obj obj' =>
             forall key s,
               key = "foreground" \/ key = "background" ->
               rule_field key obj = Some (JStr s) ->
               is_literal s = false ->
               exists c, get_color_for_binding self s = Ok c /\
                         rule_field key obj' = Some (JStr c))
          (theme_rules theme) (theme_rules theme').
Proof.
  intros Hdoc. rewrite (apply_to_theme_spec self _ Hdoc). intros H.
  destruct (spec_apply_inv _ H)
    as (d & cs & cs' & rs & rs' & -> & Ec & Et & Hcs & Hrs & -> & _ & Hr').
  rewrite Hr'. simpl. rewrite Et.
  apply for_each_Forall2 with (body := spec_rule self); [|exact Hrs].
  intros obj obj' _ Hobj key s Hkey Hf Hlit.
  destruct (spec_rule_lookup _ Hobj Hkey Hf) as (v' & Hv' & Hget).
  simpl in Hv'. rewrite Hlit in Hv'.
  destruct (get_color_for_binding self s) as [c|e]; simpl in Hv';
    [|discriminate].
  injection Hv' as <-. eauto.
Qed.

End Rewritten.

(** X10. The outcome of a successful run on a theme document is a theme
    document again: ["colors"] is an object of strings with the same,
    distinct keys, and ["tokenColors"] a list of rule objects whose
    settings, where present, are objects with string ["foreground"] and
    ["background"]. *)
Theorem apply_to_theme_keeps_shape (self : ColorMappings)
  (theme theme' : json) :
  is_theme_document theme = true ->
  apply_to_theme self theme = Ok theme' ->
  is_theme_document theme' = true /\
  dict_keys (theme_colors theme') = dict_keys (theme_colors theme) /\
  length (theme_rules theme') = length (theme_rules theme).
Proof.
  intros Hdoc H. split; [exact (apply_to_theme_document self _ Hdoc H)|].
  pose proof H as H'. rewrite (apply_to_theme_spec self _ Hdoc) in H'.
  destruct (spec_apply_inv _ _ H')
    as (d & cs & cs' & rs & rs' & -> & Ec & Et & Hcs & Hrs & -> & Hc' & Hr').
  rewrite Hc', Hr'. simpl. rewrite Ec, Et. split.
  - exact (spec_colors_keys _ _ Hcs).
  - assert (F : Forall2 (fun _ _ => True) rs rs').
    { apply for_each_Forall2 with (body := spec_rule self); [auto | exact Hrs]. }
    symmetry. exact (Forall2_length F).
Qed.

Lemma apply_to_theme_keeps_shape_witness :
  is_theme_document sample_literal_theme = true /\
  dict_keys (theme_colors sample_literal_theme) =
    dict_keys (theme_colors sample_theme) /\
  length (theme_rules sample_literal_theme) =
    length (theme_rules sample_theme).
Proof.
  apply (@apply_to_theme_keeps_shape sample_mappings sample_theme
           sample_literal_theme); reflexivity.
Defined.

(** X11. What the rewriter puts in place of a reference. After a
    successful run on a theme document, a key of ["colors"] whose value
    was the non-literal string [s] holds the colour that
    [get_color_for_binding] returns for [s], and so does, rule by rule, a
    ["foreground"] or ["background"] whose value was [s]. *)
Theorem apply_to_theme_resolves (self : ColorMappings) (theme theme' : json) :
  is_theme_document theme = true ->
  apply_to_theme self theme = Ok theme' ->
  (forall k s,
     dict_get k (theme_colors theme) = Some (JStr s) ->
     is_literal s = false ->
     exists c, get_color_for_binding self s = Ok c /\
               dict_get k (theme_colors theme') = Some (JStr c)) /\
  Forall2 (fun obj obj' =>
             forall key s,
               key = "foreground" \/ key = "background" ->
               rule_field key obj = Some (JStr s) ->
               is_literal s = false ->
               exists c, get_color_for_binding self s = Ok c /\
                         rule_field key obj' = Some (JStr c))
          (theme_rules theme) (theme_rules theme').
Proof.
  intros Hdoc H. split.
  - intros k s. eapply apply_to_theme_resolved_colors; eassumption.
  - eapply apply_to_theme_resolved_rules; eassumption.
Qed.

Lemma apply_to_theme_resolves_witness :
  exists c, get_color_for_binding sample_mappings "ui.border" = Ok c /\
            dict_get "panel.border" (theme_colors sample_literal_theme) =
              Some (JStr c).
Proof.
  apply (proj1 (@apply_to_theme_resolves sample_mappings sample_theme
                  sample_literal_theme eq_refl eq_refl)); reflexivity.
Defined.

(* ================================================================== *)
(** ** The tables as the rewriter sees them *)
(* ================================================================== *)

Section SameResolutions.

Variables self1 self2 : ColorMappings.

Lemma spec_value_ext (v : json) :
  (forall s, In s (reference_of v) ->
             get_color_for_binding self1 s = get_color_for_binding self2 s) ->
  spec_value self1 v = spec_value self2 v.
Proof.
  destruct v; try reflexivity. simpl. destruct (is_literal s); [reflexivity|].
  intros H. rewrite (H s); [reflexivity | left; reflexivity].
Qed.

Lemma spec_colors_ext (d : dict json) :
  (forall s, In s (flat_map (fun kv => reference_of (snd kv)) d) ->
             get_color_for_binding self1 s = get_color_for_binding self2 s) ->
  spec_colors self1 d = spec_colors self2 d.
Proof.
  intros H. apply for_each_ext, Forall_forall. intros [k v] Hin. simpl.
  rewrite spec_value_ext; [reflexivity|].
  intros s Hs. apply H, in_flat_map. exists (k, v). auto.
Qed.

Lemma spec_field_ext (key : string) (d : dict json) :
  (forall s, In s (field_references key d) ->
             get_color_for_binding self1 s = get_color_for_binding self2 s) ->
  spec_field self1 key d = spec_field self2 key d.
Proof.
  unfold spec_field, field_references.
  destruct (dict_get key d) as [v|]; [|reflexivity].
  intros H. rewrite (spec_value_ext _ H). reflexivity.
Qed.

Lemma spec_rule_ext (obj : json) :
  (forall s, In s (rule_references obj) ->
             get_color_for_binding self1 s = get_color_for_binding self2 s) ->
  spec_rule self1 obj = spec_rule self2 obj.
Proof.
  destruct obj; try reflexivity. simpl.
  destruct (dict_get "settings" d) as [[| | | | | |s]|]; try reflexivity.
  intros H. unfold spec_settings.
  rewrite (spec_field_ext "foreground" s), (spec_field_ext "background" s);
    [reflexivity | |]; intros r Hr; apply H, in_app_iff; auto.
Qed.

Lemma spec_apply_ext (theme : json) :
  (forall s, In s (references theme) ->
             get_color_for_binding self1 s = get_color_for_binding self2 s) ->
  spec_apply self1 theme = spec_apply self2 theme.
Proof.
  unfold references. destruct theme; try reflexivity. simpl.
  destruct (dict_get "colors" d) as [[| | | | |?|colors]|]; try reflexivity.
  destruct (dict_get "tokenColors" d) as [[| | | | |rules|?]|];
    try reflexivity.
  intros H. rewrite spec_colors_ext.
  - rewrite (for_each_ext (spec_rule self1) (spec_rule self2));
      [reflexivity|].
    apply Forall_forall. intros obj Hin. apply spec_rule_ext.
    intros s Hs. apply H, in_app_iff. right. apply in_flat_map. eauto.
  - intros s Hs. apply H, in_app_iff. auto.
Qed.

End SameResolutions.

(** X12. The rewriter consults the tables through the references of the
    document only: two sets of tables under which every reference of a
    theme document resolves alike (to the same colour or with the same
    exception) rewrite the document alike. Groups, colours, categories and
    bindings the document does not lead to make no difference. *)
Theorem apply_to_theme_same_resolutions (self1 self2 : ColorMappings)
  (theme : json) :
  is_theme_document theme = true ->
  (forall s, In s (references theme) ->
             get_color_for_binding self1 s = get_color_for_binding self2 s) ->
  apply_to_theme self1 theme = apply_to_theme self2 theme.
Proof.
  intros Hdoc H.
  rewrite (apply_to_theme_spec self1 _ Hdoc), (apply_to_theme_spec self2 _ Hdoc).
  apply spec_apply_ext, H.
Qed.

Lemma apply_to_theme_same_resolutions_witness :
  apply_to_theme sample_mappings sample_theme =
  apply_to_theme
    (__init__ [("greys", [("sky", "#708090")]); ("blues", [("sky", "#87ceeb")])]
              [("ui", [("border", "blues.sky"); ("shade", "sky")])])
    sample_theme.
Proof.
  apply (@apply_to_theme_same_resolutions sample_mappings
           (__init__ [("greys", [("sky", "#708090")]);
                      ("blues", [("sky", "#87ceeb")])]
                     [("ui", [("border", "blues.sky"); ("shade", "sky")])])
           sample_theme eq_refl).
  intros s [<-|[<-|[]]]; reflexivity.
Defined.

(** X13. The required fields. A document that is not an object raises a
    type error; an object without ["colors"] raises the key error for
    ["colors"], whatever else it holds; an object with ["colors"] but
    without ["tokenColors"] raises the key error for ["tokenColors"], yet
    only once the colours have been rewritten: a failure among them comes
    first. *)
Theorem apply_to_theme_required_fields (self : ColorMappings) :
  (forall theme, (forall d, theme <> JObj d) ->
     apply_to_theme self theme = Raise PyTypeError) /\
  (forall d, dict_get "colors" d = None ->
     apply_to_theme self (JObj d) = Raise (PyKeyError "colors")) /\
  (forall d colors, dict_get "colors" d = Some colors ->
     dict_get "tokenColors" d = None ->
     apply_to_theme self (JObj d) =
       match rewrite_colors self colors with
       | Ok _ => Raise (PyKeyError "tokenColors")
       | Raise e => Raise e
       end).
Proof.
  split; [|split].
  - intros theme H. destruct theme; try reflexivity.
    exfalso. exact (H d eq_refl).
  - intros d H. unfold apply_to_theme. simpl. rewrite H. reflexivity.
  - intros d colors Hc Ht. unfold apply_to_theme. simpl. rewrite Hc. simpl.
    destruct (rewrite_colors self colors); simpl; [|reflexivity].
    rewrite dict_get_set_ne by discriminate. rewrite Ht. reflexivity.
Qed.

Lemma apply_to_theme_required_fields_witness :
  apply_to_theme sample_mappings (JArr []) = Raise PyTypeError /\
  apply_to_theme sample_mappings (JObj [("tokenColors", JArr [])]) =
    Raise (PyKeyError "colors") /\
  apply_to_theme sample_mappings
    (JObj [("colors", JObj [("panel.border", JStr "border")])]) =
    Raise (UnqualifiedBindingError "border").
Proof.
  pose proof (apply_to_theme_required_fields sample_mappings) as (H1 & H2 & H3).
  split; [apply H1; discriminate|].
  split; [apply H2; reflexivity|].
  apply (H3 [("colors", JObj [("panel.border", JStr "border")])]
            (JObj [("panel.border", JStr "border")])); reflexivity.
Defined.

(* ================================================================== *)
(** ** Loading the tables *)
(* ================================================================== *)












(* ================================================================== *)
(** ** The entry point *)
(* ================================================================== *)









